(** * ndscan.experiment.result_channels: result sinks and result channels

    A shallow embedding of [ndscan/experiment/result_channels.py] together
    with the properties its specification states about it.

    Layout:
    - Python values, exceptions and a small state-and-exception monad;
    - the dataset store of the host environment ([HasEnvironment]);
    - the sinks ([SingleUseSink], [LastValueSink], [ArraySink],
      [AppendingDatasetSink], [ScalarDatasetSink]);
    - the builtins [float()] and [int()];
    - the channels ([ResultChannel], [NumericChannel] and the four concrete
      variants);
    - the theorems. *)

From Stdlib Require Import ZArith Lia Ascii String.
From Stdlib Require Import Floats.SpecFloat.
From stdpp Require Import gmap strings list fin_maps.

#[local] Set Warnings "-register-all,-clear-no-such-hyp".
#[local] Open Scope Z_scope.

(** ** Python values *)

(** The fragment of Python's value universe that result channels carry:
    [None], booleans, unbounded integers, binary64 floats, strings, lists
    and string-keyed dicts. *)
Inductive PyVal : Type :=
| VNone
| VBool (b : bool)
| VInt (z : Z)
| VFloat (f : spec_float)
| VStr (s : string)
| VList (l : list PyVal)
| VDict (d : gmap string PyVal).

(** [v is None] *)
Definition is_None (v : PyVal) : bool :=
  match v with VNone => true | _ => false end.

(** ** Exceptions and results *)

Inductive exn : Type :=
| RuntimeError
| ValueError
| KeyError
| TypeError
| AttributeError
| AssertionError
| OverflowError
| NotImplementedError.

Inductive result (A : Type) : Type :=
| Ok (a : A)
| Raise (e : exn).
Arguments Ok {A} a.
Arguments Raise {A} e.

(** ** Statements: state passing with exceptions

    A method body is a function from the state before to the state after and
    either a return value or the exception raised. The state reached when an
    exception is raised is kept: Python does not roll back the assignments
    made before a [raise]. *)
Definition M (S A : Type) : Type := S -> S * result A.

Definition ret {S A} (a : A) : M S A := fun s => (s, Ok a).
Definition raise {S A} (e : exn) : M S A := fun s => (s, Raise e).
Definition bind {S A B} (m : M S A) (k : A -> M S B) : M S B :=
  fun s => match m s with
           | (s', Ok a) => k a s'
           | (s', Raise e) => (s', Raise e)
           end.
Definition gets {S A} (f : S -> A) : M S A := fun s => (s, Ok (f s)).
Definition modify {S} (f : S -> S) : M S unit := fun s => (f s, Ok tt).
(** a pure computation that may raise *)
Definition lift {S A} (r : result A) : M S A := fun s => (s, r).
(** [assert b] *)
Definition assert_ {S} (b : bool) : M S unit :=
  if b then ret tt else raise AssertionError.
(** run a statement on the first / second component of a pair of states *)
Definition on_fst {S T A} (m : M S A) : M (S * T) A :=
  fun st => let '(s', r) := m (fst st) in ((s', snd st), r).
Definition on_snd {S T A} (m : M T A) : M (S * T) A :=
  fun st => let '(t', r) := m (snd st) in ((fst st, t'), r).

Declare Scope py_scope.
Delimit Scope py_scope with py.
Notation "x <- c1 ;; c2" := (bind c1 (fun x => c2))
  (at level 100, c1 at next level, right associativity) : py_scope.
Notation "c1 ;;; c2" := (bind c1 (fun _ => c2))
  (at level 100, right associativity) : py_scope.

(** Running a list of calls in order, stopping at the first exception. *)
Fixpoint run_all {S A} (f : A -> M S unit) (xs : list A) : M S unit :=
  match xs with
  | [] => ret tt
  | x :: xs' => bind (f x) (fun _ => run_all f xs')
  end.

(** ** The dataset store of the host environment *)

(** Modelled from the spec: the dataset store behind ARTIQ's
    [HasEnvironment], which is not part of this module. The spec gives the
    call contracts [set_dataset(key, value, broadcast)],
    [append_to_dataset(key, value)] and [get_dataset(key) -> value] over
    string keys: [set_dataset] (over)writes the entry at [key],
    [append_to_dataset] appends to the sequence stored at [key], and
    [get_dataset] reads the entry back. Reading or appending to a key that
    holds nothing, and appending to an entry that is not a sequence, are
    errors. *)
Module HasEnvironment.
Record dataset := mk { ds_value : PyVal; ds_broadcast : bool }.

Definition set_dataset (key : string) (value : PyVal) (broadcast : bool)
  : M (gmap string dataset) unit :=
  modify (fun ds => <[key := mk value broadcast]> ds).

Definition append_to_dataset (key : string) (value : PyVal)
  : M (gmap string dataset) unit :=
  fun ds =>
    match ds !! key with
    | Some (mk (VList l) b) => (<[key := mk (VList (l ++ [value])) b]> ds, Ok tt)
    | Some _ => (ds, Raise AttributeError)
    | None => (ds, Raise KeyError)
    end.

Definition get_dataset (key : string) : M (gmap string dataset) PyVal :=
  fun ds =>
    match ds !! key with
    | Some d => (ds, Ok (ds_value d))
    | None => (ds, Raise KeyError)
    end.
End HasEnvironment.

Abbreviation datasets := (gmap string HasEnvironment.dataset).

(** ** Sinks *)

Module SingleUseSink.
Record t := mk { _is_set : bool; _value : PyVal }.

Definition __init__ : t := {| _is_set := false; _value := VNone |}.

Definition push (value : PyVal) : M t unit :=
  (self <- gets id ;;
   if _is_set self then raise RuntimeError
   else
     modify (fun self => {| _is_set := _is_set self; _value := value |}) ;;;
     modify (fun self => {| _is_set := true; _value := _value self |}))%py.

Definition is_set (self : t) : bool := _is_set self.

Definition get (self : t) : result PyVal :=
  if negb (_is_set self) then Raise ValueError else Ok (_value self).

Definition get_last (self : t) : result PyVal := get self.

Definition reset : M t unit :=
  (modify (fun self => {| _is_set := _is_set self; _value := VNone |}) ;;;
   modify (fun self => {| _is_set := false; _value := _value self |}))%py.
End SingleUseSink.

Module LastValueSink.
Record t := mk { value : PyVal }.

Definition __init__ : t := {| value := VNone |}.

Definition push (v : PyVal) : M t unit :=
  modify (fun _ => {| value := v |}).

Definition get_last (self : t) : PyVal := value self.
End LastValueSink.

Module ArraySink.
Record t := mk { data : list PyVal }.

Definition __init__ : t := {| data := [] |}.

(** [self.data.append(value)] *)
Definition push (value : PyVal) : M t unit :=
  modify (fun self => {| data := data self ++ [value] |}).

Definition get_all (self : t) : list PyVal := data self.

(** [self.data[-1] if self.data else None] *)
Definition get_last (self : t) : PyVal :=
  match data self with
  | [] => VNone
  | _ :: _ => List.last (data self) VNone
  end.

Definition clear : M t unit := modify (fun _ => {| data := [] |}).
End ArraySink.

Module AppendingDatasetSink.
Import HasEnvironment.

Record t := mk { key : string; broadcast : bool; last_value : PyVal }.

(** [build(key, broadcast=True)] *)
Definition build (key : string) (broadcast : bool) : t :=
  {| key := key; broadcast := broadcast; last_value := VNone |}.

Definition set_last_value (v : PyVal) (self : t) : t :=
  {| key := key self; broadcast := broadcast self; last_value := v |}.

Definition push (value : PyVal) : M (datasets * t) unit :=
  (assert_ (negb (is_None value)) ;;;
   self <- gets snd ;;
   (if is_None (last_value self)
    then on_fst (set_dataset (key self) (VList [value]) (broadcast self))
    else on_fst (append_to_dataset (key self) value)) ;;;
   on_snd (modify (set_last_value value)))%py.

Definition get_last (self : t) : PyVal := last_value self.

(** [[] if (self.last_value is None) else self.get_dataset(self.key)] *)
Definition get_all : M (datasets * t) PyVal :=
  (self <- gets snd ;;
   if is_None (last_value self) then ret (VList [])
   else on_fst (get_dataset (key self)))%py.
End AppendingDatasetSink.

Module ScalarDatasetSink.
Import HasEnvironment.

Record t := mk { key : string; broadcast : bool; has_pushed : bool }.

Definition build (key : string) (broadcast : bool) : t :=
  {| key := key; broadcast := broadcast; has_pushed := false |}.

Definition set_has_pushed (b : bool) (self : t) : t :=
  {| key := key self; broadcast := broadcast self; has_pushed := b |}.

Definition push (value : PyVal) : M (datasets * t) unit :=
  (self <- gets snd ;;
   on_fst (set_dataset (key self) value (broadcast self)) ;;;
   on_snd (modify (set_has_pushed true)))%py.

(** [self.get_dataset(self.key) if self.has_pushed else None] *)
Definition get_last : M (datasets * t) PyVal :=
  (self <- gets snd ;;
   if has_pushed self then on_fst (get_dataset (key self))
   else ret VNone)%py.
End ScalarDatasetSink.

(** A sink object is an instance of one of the sink classes; [push] is
    dispatched on the class. [BaseSink] is a bare [ResultSink], whose
    [push] is not implemented. *)
Module ResultSink.
Inductive t : Type :=
| BaseSink
| SingleUse (s : SingleUseSink.t)
| LastValue (s : LastValueSink.t)
| Array (s : ArraySink.t)
| AppendingDataset (s : AppendingDatasetSink.t)
| ScalarDataset (s : ScalarDatasetSink.t).

Definition push (value : PyVal) : M (datasets * t) unit :=
  fun '(ds, sk) =>
    match sk with
    | BaseSink => ((ds, sk), Raise NotImplementedError)
    | SingleUse s =>
        let '(s', r) := SingleUseSink.push value s in ((ds, SingleUse s'), r)
    | LastValue s =>
        let '(s', r) := LastValueSink.push value s in ((ds, LastValue s'), r)
    | Array s =>
        let '(s', r) := ArraySink.push value s in ((ds, Array s'), r)
    | AppendingDataset s =>
        let '((ds', s'), r) := AppendingDatasetSink.push value (ds, s) in
        ((ds', AppendingDataset s'), r)
    | ScalarDataset s =>
        let '((ds', s'), r) := ScalarDatasetSink.push value (ds, s) in
        ((ds', ScalarDataset s'), r)
    end.
End ResultSink.

(** ** Strings as text

    A [VStr] holds a Python [str] in its UTF-8 encoding, which is also how
    a string literal of this file is stored. [float()] and [int()] read the
    code points: every Unicode decimal digit counts as the ASCII digit of
    its value and every Unicode blank outside ASCII as a space. The tables
    are those of Unicode 14.0. *)
Module Unicode.
#[local] Open Scope N_scope.

(** the code of an ASCII character *)
Definition chr (a : ascii) : N := N_of_ascii a.

Definition bytes (s : string) : list N :=
  map N_of_ascii (list_ascii_of_string s).

(** the payload of a continuation byte *)
Definition continuation (b : N) : option N :=
  if (128 <=? b) && (b <=? 191) then Some (b - 128) else None.

(** The code points that a sequence of bytes encodes in UTF-8; overlong
    forms, surrogates and values beyond U+10FFFF encode nothing. *)
Fixpoint decode (l : list N) : option (list N) :=
  match l with
  | [] => Some []
  | b0 :: l1 =>
      if b0 <? 128 then cons b0 <$> decode l1
      else if (194 <=? b0) && (b0 <=? 223) then
        match l1 with
        | b1 :: l2 =>
            match continuation b1 with
            | Some c1 => cons ((b0 - 192) * 64 + c1) <$> decode l2
            | None => None
            end
        | _ => None
        end
      else if (224 <=? b0) && (b0 <=? 239) then
        match l1 with
        | b1 :: b2 :: l3 =>
            match continuation b1, continuation b2 with
            | Some c1, Some c2 =>
                let cp := (b0 - 224) * 4096 + c1 * 64 + c2 in
                if (2048 <=? cp) && negb ((55296 <=? cp) && (cp <=? 57343))
                then cons cp <$> decode l3
                else None
            | _, _ => None
            end
        | _ => None
        end
      else if (240 <=? b0) && (b0 <=? 244) then
        match l1 with
        | b1 :: b2 :: b3 :: l4 =>
            match continuation b1, continuation b2, continuation b3 with
            | Some c1, Some c2, Some c3 =>
                let cp := (b0 - 240) * 262144 + c1 * 4096 + c2 * 64 + c3 in
                if (65536 <=? cp) && (cp <=? 1114111)
                then cons cp <$> decode l4
                else None
            | _, _, _ => None
            end
        | _ => None
        end
      else None
  end.

(** The digit zero of every run of decimal digits (general category Nd);
    the nine code points after each are its digits one to nine. *)
Definition decimal_zeros : list N :=
  [48; 1632; 1776; 1984; 2406; 2534; 2662; 2790; 2918; 3046; 3174; 3302;
   3430; 3558; 3664; 3792; 3872; 4160; 4240; 6112; 6160; 6470; 6608; 6784;
   6800; 6992; 7088; 7232; 7248; 42528; 43216; 43264; 43472; 43504; 43600;
   44016; 65296; 66720; 68912; 69734; 69872; 69942; 70096; 70384; 70736;
   70864; 71248; 71360; 71472; 71904; 72016; 72784; 73040; 73120; 92768;
   92864; 93008; 120782; 120792; 120802; 120812; 120822; 123200; 123632;
   125264; 130032]%N.

(** the value of a decimal digit *)
Definition Py_UNICODE_TODECIMAL (ch : N) : option N :=
  match List.find (fun z => (z <=? ch) && (ch <? z + 10)) decimal_zeros with
  | Some z => Some (ch - z)
  | None => None
  end.

(** [str.isspace] of a single character *)
Definition Py_UNICODE_ISSPACE (ch : N) : bool :=
  ((9 <=? ch) && (ch <=? 13)) || ((28 <=? ch) && (ch <=? 32)) ||
  (ch =? 133) || (ch =? 160) || (ch =? 5760) ||
  ((8192 <=? ch) && (ch <=? 8202)) || (ch =? 8232) || (ch =? 8233) ||
  (ch =? 8239) || (ch =? 8287) || (ch =? 12288).

(** Characters below 127 stay; beyond, a blank becomes a space and a
    decimal digit its ASCII digit. Any other character has no ASCII
    reading: CPython puts a question mark in its place and drops the rest,
    which spells no number, and the result here is [None]. *)
Fixpoint transform (l : list N) : option (list N) :=
  match l with
  | [] => Some []
  | ch :: l' =>
      if ch <? 127 then cons ch <$> transform l'
      else if Py_UNICODE_ISSPACE ch then cons 32 <$> transform l'
      else
        match Py_UNICODE_TODECIMAL ch with
        | Some d => cons (48 + d) <$> transform l'
        | None => None
        end
  end.

(** an ASCII string is taken as it is *)
Definition _PyUnicode_TransformDecimalAndSpaceToASCII (l : list N)
  : option (list N) :=
  if forallb (fun ch => ch <? 128) l then Some l else transform l.
End Unicode.

(** ** Strings that spell a number

    The strings that [float()] accepts, as the language reference gives
    them:
<<
    floatvalue  ::= [sign] (floatnumber | "inf" | "infinity" | "nan")
    floatnumber ::= number [exponent]
    number      ::= [digitpart] "." digitpart | digitpart ["."]
    exponent    ::= ("e" | "E") [sign] digitpart
    digitpart   ::= digit (["_"] digit)*
>>
    where case is not significant in the three words, a digit is any
    Unicode decimal digit, and blanks before and after are ignored. The
    blanks are tab, line feed, vertical tab, form feed, carriage return
    and space, and the Unicode blanks outside ASCII. This describes the
    strings, not how they are read. *)
Module NumericLiteral.
Import Unicode.
#[local] Open Scope N_scope.

Definition digit (a : N) : Prop := 48 <= a <= 57.

Definition blank (a : N) : Prop := 9 <= a <= 13 \/ a = 32.

(** [(["_"] digit)*] *)
Inductive digits_rest : list N -> Prop :=
| digits_rest_nil : digits_rest []
| digits_rest_digit a l :
    digit a -> digits_rest l -> digits_rest (a :: l)
| digits_rest_underscore a l :
    digit a -> digits_rest l -> digits_rest (chr "_" :: a :: l).

Definition digitpart (l : list N) : Prop :=
  exists a r, digit a /\ digits_rest r /\ l = a :: r.

Definition sign (l : list N) : Prop :=
  l = [] \/ l = [chr "+"] \/ l = [chr "-"].

Definition number (l : list N) : Prop :=
  (exists a b, (a = [] \/ digitpart a) /\ digitpart b /\
               l = a ++ chr "." :: b) \/
  (exists a, digitpart a /\ (l = a \/ l = a ++ [chr "."])).

Definition exponent (l : list N) : Prop :=
  exists e sg d,
    (e = chr "e" \/ e = chr "E") /\ sign sg /\ digitpart d /\
    l = e :: sg ++ d.

Definition floatnumber (l : list N) : Prop :=
  exists n x, number n /\ (x = [] \/ exponent x) /\ l = n ++ x.

(** the word [w], given in lower case, in any mix of cases *)
Definition word (w : string) (l : list N) : Prop :=
  Forall2 (fun x a => a = x \/ a + 32 = x) (bytes w) l.

Definition absfloatvalue (l : list N) : Prop :=
  floatnumber l \/ word "inf" l \/ word "infinity" l \/ word "nan" l.

Definition floatvalue (l : list N) : Prop :=
  exists sg r, sign sg /\ absfloatvalue r /\ l = sg ++ r.

(** [body] with blanks before and after *)
Definition padded (body l : list N) : Prop :=
  exists pre post,
    l = pre ++ body ++ post /\ Forall blank pre /\ Forall blank post.

(** the ASCII character that a code point counts as *)
Definition reads_as (ch a : N) : Prop :=
  (ch < 128 /\ a = ch) \/
  (128 <= ch /\ Py_UNICODE_ISSPACE ch = true /\ a = 32) \/
  (128 <= ch /\ exists d, Py_UNICODE_TODECIMAL ch = Some d /\ a = 48 + d).

Definition numeric_text (cps : list N) : Prop :=
  exists t body,
    Forall2 reads_as cps t /\ padded body t /\ floatvalue body.

(** the strings that spell a number *)
Definition numeric_string (s : string) : Prop :=
  exists cps, decode (bytes s) = Some cps /\ numeric_text cps.
End NumericLiteral.

(** ** The builtins [float()] and [int()]

    Python's conversions on the values above, as CPython 3.11 has them. A
    float is an IEEE 754 binary64 number; conversions from integers and
    from decimal strings round to nearest, ties to even. A string is read
    through [_PyUnicode_TransformDecimalAndSpaceToASCII], stripped of the
    blanks of [Py_ISSPACE] at both ends and then read as a number;
    [int()] accepts [[sign] digitpart] of at most 4300 digits. *)
Module Builtins.
Import Unicode.

Definition prec : Z := 53.
Definition emax : Z := 1024.

(** [Py_ISSPACE] *)
Definition is_space (c : N) : bool :=
  ((9 <=? c)%N && (c <=? 13)%N) || (c =? 32)%N.

Definition digit_of (c : N) : option Z :=
  if ((48 <=? c)%N && (c <=? 57)%N) then Some (Z.of_N c - 48) else None.

Definition lower (c : N) : N :=
  if ((65 <=? c)%N && (c <=? 90)%N) then (c + 32)%N else c.

Fixpoint drop_spaces (l : list N) : list N :=
  match l with
  | c :: l' => if is_space c then drop_spaces l' else l
  | [] => []
  end.

Definition strip (l : list N) : list N :=
  rev (drop_spaces (rev (drop_spaces l))).

(** the rest of a [digitpart], after its first digit: the value and the
    number of digits read so far, and the input left *)
Fixpoint digits_tail (acc : Z) (n : nat) (l : list N)
  : Z * nat * list N :=
  match l with
  | c :: l' =>
      match digit_of c with
      | Some d => digits_tail (10 * acc + d) (S n) l'
      | None =>
          if (c =? chr "_")%N then
            match l' with
            | c2 :: l'' =>
                match digit_of c2 with
                | Some d => digits_tail (10 * acc + d) (S n) l''
                | None => (acc, n, l)
                end
            | [] => (acc, n, l)
            end
          else (acc, n, l)
      end
  | [] => (acc, n, [])
  end.

Definition digitpart (l : list N) : option (Z * nat * list N) :=
  match l with
  | c :: l' =>
      match digit_of c with
      | Some d => Some (digits_tail d 1 l')
      | None => None
      end
  | [] => None
  end.

(** an optional sign: whether it is a minus, and the input left *)
Definition sign (l : list N) : bool * list N :=
  match l with
  | c :: l' =>
      if (c =? chr "-")%N then (true, l')
      else if (c =? chr "+")%N then (false, l')
      else (false, l)
  | [] => (false, [])
  end.

(** What a numeric string denotes: an infinity, a NaN, or the decimal
    [mantissa * 10 ^ exponent]. *)
Inductive number : Type :=
| NInf (neg : bool)
| NNan
| NDec (neg : bool) (mantissa : Z) (exponent : Z).

(** [[exponent]] to the end of the input *)
Definition exponent_end (l : list N) : option (option Z) :=
  match l with
  | [] => Some None
  | c :: l' =>
      if (lower c =? chr "e")%N then
        let '(neg, l'') := sign l' in
        match digitpart l'' with
        | Some (e, _, []) => Some (Some (if neg : bool then - e else e))
        | _ => None
        end
      else None
  end.

Definition finish (neg : bool) (m : Z) (nfrac : nat) (l : list N)
  : option number :=
  match exponent_end l with
  | Some None => Some (NDec neg m (- Z.of_nat nfrac))
  | Some (Some e) => Some (NDec neg m (e - Z.of_nat nfrac))
  | None => None
  end.

Definition floatnumber (neg : bool) (l : list N) : option number :=
  match digitpart l with
  | Some (ip, _, rest) =>
      match rest with
      | c :: rest1 =>
          if (c =? chr ".")%N then
            match digitpart rest1 with
            | Some (fr, nf, rest2) =>
                finish neg (ip * 10 ^ Z.of_nat nf + fr) nf rest2
            | None => finish neg ip 0 rest1
            end
          else finish neg ip 0 rest
      | [] => finish neg ip 0 rest
      end
  | None =>
      match l with
      | c :: rest1 =>
          if (c =? chr ".")%N then
            match digitpart rest1 with
            | Some (fr, nf, rest2) => finish neg fr nf rest2
            | None => None
            end
          else None
      | [] => None
      end
  end.

(** the ASCII text of a string, if it has one *)
Definition text (s : string) : option (list N) :=
  match decode (bytes s) with
  | Some cps => _PyUnicode_TransformDecimalAndSpaceToASCII cps
  | None => None
  end.

Definition parse_number (s : string) : option number :=
  match text s with
  | Some t =>
      let '(neg, l) := sign (strip t) in
      let word := map lower l in
      if bool_decide (word = bytes "inf") ||
         bool_decide (word = bytes "infinity") then Some (NInf neg)
      else if bool_decide (word = bytes "nan") then Some NNan
      else floatnumber neg l
  | None => None
  end.

(** [[sign] digitpart]: the sign, the value and the number of digits *)
Definition parse_int (s : string) : option (bool * Z * nat) :=
  match text s with
  | Some t =>
      let '(neg, l) := sign (strip t) in
      match digitpart l with
      | Some (m, n, []) => Some (neg, m, n)
      | _ => None
      end
  | None => None
  end.

(** the limit on the digits of a string converted to an integer
    ([sys.int_info.default_max_str_digits]) *)
Definition max_str_digits : nat := 4300.

(** the binary64 nearest to [p / q], for [p, q > 0] *)
Definition round_ratio (neg : bool) (p q : Z) : spec_float :=
  let '(m, e, l) := SFdiv_core_binary prec emax p 0 q 0 in
  binary_round_aux prec emax neg m e l.

Definition float_of_number (n : number) : spec_float :=
  match n with
  | NInf neg => S754_infinity neg
  | NNan => S754_nan
  | NDec neg m e =>
      if m =? 0 then S754_zero neg
      else if 0 <=? e then round_ratio neg (m * 10 ^ e) 1
      else round_ratio neg m (10 ^ (- e))
  end.

Definition float_of_Z (z : Z) : spec_float :=
  binary_normalize prec emax z 0 false.

(** [float(v)] *)
Definition float (v : PyVal) : result PyVal :=
  match v with
  | VBool b => Ok (VFloat (float_of_Z (Z.b2z b)))
  | VInt z =>
      match float_of_Z z with
      | S754_infinity _ => Raise OverflowError
      | f => Ok (VFloat f)
      end
  | VFloat f => Ok (VFloat f)
  | VStr s =>
      match parse_number s with
      | Some n => Ok (VFloat (float_of_number n))
      | None => Raise ValueError
      end
  | VNone | VList _ | VDict _ => Raise TypeError
  end.

(** [int(v)]: floats are truncated towards zero *)
Definition int (v : PyVal) : result PyVal :=
  match v with
  | VBool b => Ok (VInt (Z.b2z b))
  | VInt z => Ok (VInt z)
  | VFloat (S754_zero _) => Ok (VInt 0)
  | VFloat (S754_finite s m e) =>
      Ok (VInt (cond_Zopp s (Z.shiftl (Z.pos m) e)))
  | VFloat (S754_infinity _) => Raise OverflowError
  | VFloat S754_nan => Raise ValueError
  | VStr s =>
      match parse_int s with
      | Some (neg, m, n) =>
          if (max_str_digits <? n)%nat then Raise ValueError
          else Ok (VInt (if neg : bool then - m else m))
      | None => Raise ValueError
      end
  | VNone | VList _ | VDict _ => Raise TypeError
  end.

(** The inputs that are not numbers: neither a bool, an int or a float, nor
    a string that spells a number. *)
Definition non_numeric (v : PyVal) : Prop :=
  match v with
  | VBool _ | VInt _ | VFloat _ => False
  | VStr s => ~ NumericLiteral.numeric_string s
  | VNone | VList _ | VDict _ => True
  end.
End Builtins.

(** ** Channels *)

(** The channel classes. [cResultChannel] and [cNumericChannel] are the two
    base classes, which leave [_get_type_string] and [_coerce_to_type]
    unimplemented. *)
Inductive cls : Type :=
| cResultChannel
| cNumericChannel
| cFloatChannel
| cIntChannel
| cOpaqueChannel
| cSubscanChannel.

(** [issubclass(k, NumericChannel)] *)
Definition is_numeric (k : cls) : bool :=
  match k with
  | cNumericChannel | cFloatChannel | cIntChannel => true
  | cResultChannel | cOpaqueChannel | cSubscanChannel => false
  end.

Definition _get_type_string (k : cls) : result string :=
  match k with
  | cResultChannel | cNumericChannel => Raise NotImplementedError
  | cFloatChannel => Ok "float"%string
  | cIntChannel => Ok "int"%string
  | cOpaqueChannel => Ok "opaque"%string
  | cSubscanChannel => Ok "subscan"%string
  end.

Section Coerce.
(** [dump_json] of [ndscan.experiment.utils], the JSON serialisation helper:
    the string it returns, or the exception it raises. *)
Variable dump_json : PyVal -> result PyVal.

Definition _coerce_to_type (k : cls) (value : PyVal) : result PyVal :=
  match k with
  | cResultChannel | cNumericChannel => Raise NotImplementedError
  | cFloatChannel => Builtins.float value
  | cIntChannel => Builtins.int value
  | cOpaqueChannel => Ok value
  | cSubscanChannel => dump_json value
  end.
End Coerce.

Module ResultChannel.
Record t := mk {
  class : cls;
  path : string;
  description : string;
  display_hints : gmap string PyVal;
  save_by_default : bool;
  sink : option ResultSink.t
}.

(** [__init__(path, description="", display_hints=None,
    save_by_default=True)] on an instance of class [k] *)
Definition __init__ (k : cls) (path description : string)
    (display_hints : option (gmap string PyVal)) (save_by_default : bool) : t :=
  {| class := k;
     path := path;
     description := description;
     display_hints := match display_hints with None => ∅ | Some h => h end;
     save_by_default := save_by_default;
     sink := None |}.

Definition with_sink (o : option ResultSink.t) (self : t) : t :=
  {| class := class self;
     path := path self;
     description := description self;
     display_hints := display_hints self;
     save_by_default := save_by_default self;
     sink := o |}.

(** the object with the same attributes, as an instance of class [k] *)
Definition with_class (k : cls) (self : t) : t :=
  {| class := k;
     path := path self;
     description := description self;
     display_hints := display_hints self;
     save_by_default := save_by_default self;
     sink := sink self |}.

Definition describe (self : t) : result (gmap string PyVal) :=
  match _get_type_string (class self) with
  | Raise e => Raise e
  | Ok ty =>
      let desc : gmap string PyVal :=
        <["type"%string := VStr ty]>
          (<["description"%string := VStr (description self)]>
             (<["path"%string := VStr (path self)]> ∅)) in
      Ok (if bool_decide (display_hints self = ∅) then desc
          else <["display_hints"%string := VDict (display_hints self)]> desc)
  end.

(** [self.sink is not None] *)
Definition is_muted (self : t) : bool :=
  match sink self with Some _ => true | None => false end.

Definition set_sink (sink : ResultSink.t) : M t unit :=
  modify (with_sink (Some sink)).

Section Push.
Variable dump_json : PyVal -> result PyVal.

Definition push (raw_value : PyVal) : M (datasets * t) unit :=
  (self <- gets snd ;;
   value <- lift (_coerce_to_type dump_json (class self) raw_value) ;;
   match sink self with
   | Some sk =>
       fun '(ds, self) =>
         let '((ds', sk'), r) := ResultSink.push value (ds, sk) in
         ((ds', with_sink (Some sk') self), r)
   | None => ret tt
   end)%py.
End Push.
End ResultChannel.

Module NumericChannel.
Record t := mk {
  base : ResultChannel.t;
  min : PyVal;
  max : PyVal;
  scale : PyVal;
  unit : option string;
  _value_pushed : bool;
  _last_value : PyVal
}.

Definition with_base (b : ResultChannel.t) (self : t) : t :=
  {| base := b; min := min self; max := max self; scale := scale self;
     unit := unit self; _value_pushed := _value_pushed self;
     _last_value := _last_value self |}.

Definition with_class (k : cls) (self : t) : t :=
  with_base (ResultChannel.with_class k (base self)) self.

Definition set__value_pushed (b : bool) (self : t) : t :=
  {| base := base self; min := min self; max := max self;
     scale := scale self; unit := unit self; _value_pushed := b;
     _last_value := _last_value self |}.

Definition set__last_value (v : PyVal) (self : t) : t :=
  {| base := base self; min := min self; max := max self;
     scale := scale self; unit := unit self;
     _value_pushed := _value_pushed self; _last_value := v |}.

(** the float [1.0] *)
Definition one : spec_float := Builtins.float_of_Z 1.

Section Methods.
(** [getattr(artiq.language.units, name)]: the attribute, or [None] where
    the lookup raises [AttributeError] *)
Variable units : string -> option PyVal.
Variable dump_json : PyVal -> result PyVal.

(** the resolution of [scale] in [__init__]; a [unit] that is not a string
    is refused by [getattr] *)
Definition resolve_scale (unit : option string) (scale : PyVal)
  : result PyVal :=
  if is_None scale then
    match unit with
    | Some u =>
        if String.eqb u "" then Ok (VFloat one)
        else
          match units u with
          | Some s => Ok s
          | None => Raise KeyError
          end
    | None => Raise TypeError
    end
  else Ok scale.

(** [__init__(path, description="", display_hints=None, min=None,
    max=None, unit="", scale=None)] on an instance of class [k] *)
Definition __init__ (k : cls) (path description : string)
    (display_hints : option (gmap string PyVal)) (min max : PyVal)
    (unit : option string) (scale : PyVal) : result t :=
  let b := ResultChannel.__init__ k path description display_hints true in
  match resolve_scale unit scale with
  | Raise e => Raise e
  | Ok scale =>
      match _coerce_to_type dump_json k (VInt 0) with
      | Raise e => Raise e
      | Ok zero =>
          Ok {| base := b; min := min; max := max; scale := scale;
                unit := unit; _value_pushed := false; _last_value := zero |}
      end
  end.

Definition get_last (self : t) : result PyVal :=
  if negb (_value_pushed self) then Raise RuntimeError
  else Ok (_last_value self).

(** [super().push(raw_value)] *)
Definition _push (raw_value : PyVal) : M (datasets * t) Datatypes.unit :=
  fun '(ds, self) =>
    let '((ds', b'), r) :=
      ResultChannel.push dump_json raw_value (ds, base self) in
    ((ds', with_base b' self), r).

Definition push (raw_value : PyVal) : M (datasets * t) Datatypes.unit :=
  (on_snd (modify (set__value_pushed true)) ;;;
   on_snd (modify (set__last_value raw_value)) ;;;
   _push raw_value)%py.

Definition describe (self : t) : result (gmap string PyVal) :=
  match ResultChannel.describe (base self) with
  | Raise e => Raise e
  | Ok result =>
      let result := <["scale"%string := scale self]> result in
      let result :=
        if negb (is_None (min self))
        then <["min"%string := min self]> result else result in
      let result :=
        if negb (is_None (max self))
        then <["max"%string := max self]> result else result in
      let result :=
        match unit self with
        | Some u => <["unit"%string := VStr u]> result
        | None => result
        end in
      Ok result
  end.
End Methods.
End NumericChannel.

(** A channel object: an instance of [ResultChannel] that is not a
    [NumericChannel], or an instance of [NumericChannel]. Method calls are
    resolved on the object's class. *)
Module Channel.
Inductive t : Type :=
| Plain (c : ResultChannel.t)
| Numeric (c : NumericChannel.t).

Definition base (c : t) : ResultChannel.t :=
  match c with
  | Plain b => b
  | Numeric n => NumericChannel.base n
  end.

Definition sink (c : t) : option ResultSink.t := ResultChannel.sink (base c).

Definition class (c : t) : cls := ResultChannel.class (base c).

Definition with_class (k : cls) (c : t) : t :=
  match c with
  | Plain b => Plain (ResultChannel.with_class k b)
  | Numeric n => Numeric (NumericChannel.with_class k n)
  end.

Definition is_muted (c : t) : bool := ResultChannel.is_muted (base c).

Section Methods.
Variable dump_json : PyVal -> result PyVal.

Definition push (raw_value : PyVal) : M (datasets * t) unit :=
  fun '(ds, c) =>
    match c with
    | Plain b =>
        let '((ds', b'), r) := ResultChannel.push dump_json raw_value (ds, b) in
        ((ds', Plain b'), r)
    | Numeric n =>
        let '((ds', n'), r) := NumericChannel.push dump_json raw_value (ds, n) in
        ((ds', Numeric n'), r)
    end.

Definition describe (c : t) : result (gmap string PyVal) :=
  match c with
  | Plain b => ResultChannel.describe b
  | Numeric n => NumericChannel.describe n
  end.
End Methods.

(** Objects as the constructors build them: the class of a [Plain] object
    does not derive from [NumericChannel], that of a [Numeric] one does. *)
Definition well_formed (c : t) : bool :=
  match c with
  | Plain b => negb (is_numeric (ResultChannel.class b))
  | Numeric n => is_numeric (ResultChannel.class (NumericChannel.base n))
  end.
End Channel.

(** ** Call sequences and sample collaborators *)

(** The channel after a caller went through the pushes [vs] one after the
    other, going on after a push that raised. *)
Definition after_pushes (dump_json : PyVal -> result PyVal)
    (vs : list PyVal) (st : datasets * NumericChannel.t)
  : datasets * NumericChannel.t :=
  fold_left (fun st v => fst (NumericChannel.push dump_json v st)) vs st.

Module Sample.
(** a unit table that knows [kHz] and [ms] only *)
Definition units (name : string) : option PyVal :=
  if String.eqb name "kHz" then Some (VFloat (Builtins.float_of_Z 1000))
  else if String.eqb name "ms"
  then Some (VFloat (Builtins.round_ratio false 1 1000))
  else None.

(** an empty unit table: every lookup fails *)
Definition no_units (name : string) : option PyVal := None.

(** a serialiser that knows [None] only *)
Definition dump_json (v : PyVal) : result PyVal :=
  match v with
  | VNone => Ok (VStr "null")
  | _ => Raise TypeError
  end.
End Sample.

(** ** Further call sequences *)

(** The state after a caller went through the calls [f x] for the [xs] one
    after the other, going on after a call that raised. *)
Definition continue_all {S A} (f : A -> M S unit) (xs : list A) (st : S) : S :=
  fold_left (fun st x => fst (f x st)) xs st.

(** The channel [c] with the raw value cached as a push caches it: a
    [NumericChannel] has the flag set and the value recorded, any other
    channel is as it was. *)
Definition cached (raw_value : PyVal) (c : Channel.t) : Channel.t :=
  match c with
  | Channel.Plain b => Channel.Plain b
  | Channel.Numeric n =>
      Channel.Numeric
        (NumericChannel.set__last_value raw_value
           (NumericChannel.set__value_pushed true n))
  end.

(** The channel [c] holding the sink in the state [sk]. *)
Definition attached (sk : ResultSink.t) (c : Channel.t) : Channel.t :=
  match c with
  | Channel.Plain b => Channel.Plain (ResultChannel.with_sink (Some sk) b)
  | Channel.Numeric n =>
      Channel.Numeric
        (NumericChannel.with_base
           (ResultChannel.with_sink (Some sk) (NumericChannel.base n)) n)
  end.

(** ** ArraySink, with its list as an object

    [get_all] returns the list object that [push] appends to, and [clear]
    binds [self.data] to a new list. The model of [ArraySink] above passes
    lists by value and cannot tell; here the lists live in a heap, a
    reference is an index into it, and [self.data] is a reference. *)
Module ArraySinkRef.
Record t := mk { data : nat }.

(** [[]]: a new, empty list object *)
Definition new_list : M (list (list PyVal)) nat :=
  fun h => (h ++ [ [] ], Ok (length h)).

Definition __init__ : M (list (list PyVal)) t :=
  (r <- new_list ;; ret (mk r))%py.

(** [self.data.append(value)] *)
Definition push (value : PyVal) : M (list (list PyVal) * t) unit :=
  (self <- gets snd ;;
   on_fst (modify (alter (fun l => l ++ [value]) (data self))))%py.

(** [return self.data]: the reference *)
Definition get_all (self : t) : nat := data self.

(** [self.data[-1] if self.data else None] *)
Definition get_last (st : list (list PyVal) * t) : PyVal :=
  match fst st !! data (snd st) with
  | Some (x :: l) => List.last (x :: l) VNone
  | _ => VNone
  end.

(** [self.data = []] *)
Definition clear : M (list (list PyVal) * t) unit :=
  (r <- on_fst new_list ;; on_snd (modify (fun _ => mk r)))%py.
End ArraySinkRef.

(** * Properties *)

(** ** Auxiliary facts *)

Lemma is_None_false v : is_None v = false <-> v <> VNone.
Proof. destruct v; simpl; split; congruence. Qed.

Lemma last_cons_default {A} (l : list A) : forall x d,
  List.last (x :: l) d = List.last l x.
Proof.
  induction l as [|y l IH]; intros x d; [reflexivity|].
  change (List.last (y :: l) d = List.last (y :: l) x). by rewrite !IH.
Qed.

Lemma list_snoc_cases {A} (l : list A) :
  l = [] \/ exists l' x, l = l' ++ [x].
Proof.
  destruct l as [|a l]; [by left|right].
  destruct (exists_last (l := a :: l)) as (l' & x & E); [done|].
  by exists l', x.
Qed.

(** *** ArraySink and LastValueSink *)

Lemma ArraySink_push_all vs s :
  run_all ArraySink.push vs s =
  ({| ArraySink.data := ArraySink.data s ++ vs |}, Ok tt).
Proof.
  revert s. induction vs as [|v vs IH]; intros [d]; simpl.
  - by rewrite app_nil_r.
  - unfold bind. simpl. rewrite IH. simpl. by rewrite <- app_assoc.
Qed.

Lemma ArraySink_get_last_snoc d v :
  ArraySink.get_last {| ArraySink.data := d ++ [v] |} = v.
Proof.
  unfold ArraySink.get_last. simpl.
  destruct (d ++ [v]) eqn:E.
  - by destruct d.
  - rewrite <- E. apply last_last.
Qed.

Lemma LastValueSink_push_all vs v s :
  run_all LastValueSink.push (vs ++ [v]) s =
  ({| LastValueSink.value := v |}, Ok tt).
Proof.
  revert s. induction vs as [|w vs IH]; intros s; simpl.
  - reflexivity.
  - unfold bind. simpl. apply IH.
Qed.

(** *** AppendingDatasetSink *)

Lemma AppendingDatasetSink_push_first ds k b v :
  v <> VNone ->
  AppendingDatasetSink.push v (ds, AppendingDatasetSink.build k b) =
  ((<[k := HasEnvironment.mk (VList [v]) b]> ds,
    AppendingDatasetSink.mk k b v), Ok tt).
Proof.
  intros Hv. apply is_None_false in Hv.
  unfold AppendingDatasetSink.push, bind, assert_. rewrite Hv. reflexivity.
Qed.

Lemma AppendingDatasetSink_push_next (ds : datasets) k b b' w l v :
  w <> VNone -> v <> VNone ->
  ds !! k = Some (HasEnvironment.mk (VList l) b') ->
  AppendingDatasetSink.push v (ds, AppendingDatasetSink.mk k b w) =
  ((<[k := HasEnvironment.mk (VList (l ++ [v])) b']> ds,
    AppendingDatasetSink.mk k b v), Ok tt).
Proof.
  intros Hw Hv Hk. apply is_None_false in Hw, Hv.
  unfold AppendingDatasetSink.push, bind, assert_. rewrite Hv. simpl.
  rewrite Hw. unfold on_fst, HasEnvironment.append_to_dataset. simpl.
  rewrite Hk. reflexivity.
Qed.

Lemma AppendingDatasetSink_push_more vs : forall (ds : datasets) k b b' w l,
  w <> VNone -> Forall (fun v => v <> VNone) vs ->
  ds !! k = Some (HasEnvironment.mk (VList l) b') ->
  run_all AppendingDatasetSink.push vs (ds, AppendingDatasetSink.mk k b w) =
  ((<[k := HasEnvironment.mk (VList (l ++ vs)) b']> ds,
    AppendingDatasetSink.mk k b (List.last vs w)), Ok tt).
Proof.
  induction vs as [|v vs IH]; intros ds k b b' w l Hw Hvs Hk.
  - simpl. rewrite app_nil_r, insert_id by done. reflexivity.
  - inversion Hvs as [|? ? Hv Hvs']; subst. cbn [run_all]. unfold bind.
    rewrite (AppendingDatasetSink_push_next ds k b b' w l v) by done.
    rewrite (IH _ k b b' v (l ++ [v])); [|done|done|apply lookup_insert_eq].
    rewrite insert_insert_eq, <- app_assoc, last_cons_default. reflexivity.
Qed.

Lemma AppendingDatasetSink_push_all (ds : datasets) k b v vs :
  Forall (fun v => v <> VNone) (v :: vs) ->
  run_all AppendingDatasetSink.push (v :: vs)
    (ds, AppendingDatasetSink.build k b) =
  ((<[k := HasEnvironment.mk (VList (v :: vs)) b]> ds,
    AppendingDatasetSink.mk k b (List.last vs v)), Ok tt).
Proof.
  intros H. inversion H as [|? ? Hv Hvs]; subst. cbn [run_all]. unfold bind.
  rewrite AppendingDatasetSink_push_first by done.
  rewrite (AppendingDatasetSink_push_more vs _ k b b v [v]);
    [|done|done|apply lookup_insert_eq].
  by rewrite insert_insert_eq.
Qed.

Lemma AppendingDatasetSink_get_all_pushed (ds : datasets) k b w :
  w <> VNone ->
  AppendingDatasetSink.get_all (ds, AppendingDatasetSink.mk k b w) =
  ((ds, AppendingDatasetSink.mk k b w),
   snd (HasEnvironment.get_dataset k ds)).
Proof.
  intros Hw. apply is_None_false in Hw.
  unfold AppendingDatasetSink.get_all, bind, gets.
  cbn [snd AppendingDatasetSink.last_value]. rewrite Hw.
  unfold on_fst, HasEnvironment.get_dataset.
  cbn [fst snd AppendingDatasetSink.key].
  by destruct (ds !! k).
Qed.

(** *** ScalarDatasetSink *)

Lemma ScalarDatasetSink_push_eq ds s v :
  ScalarDatasetSink.push v (ds, s) =
  ((<[ScalarDatasetSink.key s :=
        HasEnvironment.mk v (ScalarDatasetSink.broadcast s)]> ds,
    ScalarDatasetSink.set_has_pushed true s), Ok tt).
Proof. reflexivity. Qed.

Lemma ScalarDatasetSink_push_all vs : forall (ds : datasets) k b p v,
  run_all ScalarDatasetSink.push (vs ++ [v]) (ds, ScalarDatasetSink.mk k b p) =
  ((<[k := HasEnvironment.mk v b]> ds, ScalarDatasetSink.mk k b true), Ok tt).
Proof.
  induction vs as [|w vs IH]; intros ds k b p v.
  - reflexivity.
  - cbn [app run_all]. unfold bind. rewrite ScalarDatasetSink_push_eq.
    unfold ScalarDatasetSink.set_has_pushed.
    cbn [ScalarDatasetSink.key ScalarDatasetSink.broadcast].
    rewrite IH. by rewrite insert_insert_eq.
Qed.

(** ** Sinks *)

(** C3. On a [SingleUseSink] that is unset (a fresh one is, and [reset]
    leaves any sink in the state of a fresh one), [get] and [get_last] raise
    [ValueError]; the first [push v] succeeds, after which [get] and its alias
    [get_last] return exactly [v], and a second [push] raises
    [RuntimeError], leaving the stored value in place; after [reset], [push]
    succeeds again. *)
Theorem C3_single_use_sink (v w : PyVal) :
  SingleUseSink.is_set SingleUseSink.__init__ = false /\
  (forall s0, SingleUseSink.reset s0 = (SingleUseSink.__init__, Ok tt)) /\
  forall s : SingleUseSink.t,
    SingleUseSink.is_set s = false ->
    SingleUseSink.get s = Raise ValueError /\
    SingleUseSink.get_last s = Raise ValueError /\
    exists s',
      SingleUseSink.push v s = (s', Ok tt) /\
      SingleUseSink.is_set s' = true /\
      SingleUseSink.get s' = Ok v /\
      SingleUseSink.get_last s' = Ok v /\
      SingleUseSink.push w s' = (s', Raise RuntimeError) /\
      exists s'',
        (SingleUseSink.reset ;;; SingleUseSink.push w)%py s' = (s'', Ok tt) /\
        SingleUseSink.get s'' = Ok w.
Proof.
  split; [reflexivity|]. split; [reflexivity|].
  intros [set val] Hunset. unfold SingleUseSink.is_set in Hunset.
  simpl in Hunset. subst set.
  split; [reflexivity|]. split; [reflexivity|].
  eexists. repeat split.
  eexists. split; reflexivity.
Qed.

Lemma C3_single_use_sink_witness :
  SingleUseSink.get
    (fst (SingleUseSink.push (VInt 1) SingleUseSink.__init__)) = Ok (VInt 1).
Proof.
  destruct (C3_single_use_sink (VInt 1) (VInt 2)) as (_ & _ & H).
  destruct (H SingleUseSink.__init__ eq_refl)
    as (_ & _ & s' & Hpush & _ & Hget & _).
  rewrite Hpush. exact Hget.
Defined.

(** C6. An [AppendingDatasetSink] rejects [push(None)] with an
    [AssertionError] and changes nothing. On a sink as built, the first push
    of a value [v] sets the store entry at the sink's key to [[v]]; after the
    pushes [v, vs...] of values that are not [None] the entry is the
    sequence of all of them in push order. [get_all] returns [[]] while
    nothing was pushed, without reading the store, and afterwards returns
    what [get_dataset] reads at the key. *)
Theorem C6_appending_dataset_sink (ds : datasets) (k : string) (b : bool) :
  let fresh := AppendingDatasetSink.build k b in
  (forall ds0 s0,
     AppendingDatasetSink.push VNone (ds0, s0) =
     ((ds0, s0), Raise AssertionError)) /\
  AppendingDatasetSink.get_all (ds, fresh) = ((ds, fresh), Ok (VList [])) /\
  (forall v, v <> VNone ->
     exists s1,
       AppendingDatasetSink.push v (ds, fresh) =
       ((<[k := HasEnvironment.mk (VList [v]) b]> ds, s1), Ok tt)) /\
  (forall v vs, Forall (fun x => x <> VNone) (v :: vs) ->
     exists s',
       let ds' := <[k := HasEnvironment.mk (VList (v :: vs)) b]> ds in
       run_all AppendingDatasetSink.push (v :: vs) (ds, fresh) =
       ((ds', s'), Ok tt) /\
       AppendingDatasetSink.get_all (ds', s') =
       ((ds', s'), Ok (VList (v :: vs))) /\
       forall ds2,
         AppendingDatasetSink.get_all (ds2, s') =
         ((ds2, s'), snd (HasEnvironment.get_dataset k ds2))).
Proof.
  intros fresh.
  split; [reflexivity|]. split; [reflexivity|]. split.
  - intros v Hv. eexists. by apply AppendingDatasetSink_push_first.
  - intros v vs Hall. eexists. cbn zeta.
    split; [by apply AppendingDatasetSink_push_all|].
    assert (Hlast : List.last vs v <> VNone).
    { destruct (exists_last (l := v :: vs)) as (l' & x & E); [done|].
      rewrite <- (last_cons_default vs v VNone), E, last_last.
      rewrite E in Hall. apply Forall_app in Hall as [_ Hx].
      by inversion Hx. }
    split.
    + rewrite AppendingDatasetSink_get_all_pushed by done.
      unfold HasEnvironment.get_dataset. by rewrite lookup_insert_eq.
    + intros ds2. by apply AppendingDatasetSink_get_all_pushed.
Qed.

Lemma C6_appending_dataset_sink_witness :
  exists s',
    run_all AppendingDatasetSink.push [VInt 1; VInt 2; VInt 3]
      (∅, AppendingDatasetSink.build "data" true) =
    ((<["data"%string :=
          HasEnvironment.mk (VList [VInt 1; VInt 2; VInt 3]) true]> ∅, s'),
     Ok tt).
Proof.
  assert (H : Forall (fun x => x <> VNone) [VInt 1; VInt 2; VInt 3])
    by (repeat constructor; discriminate).
  destruct (C6_appending_dataset_sink ∅ "data" true) as (_ & _ & _ & Hall).
  destruct (Hall (VInt 1) [VInt 2; VInt 3] H) as (s' & Hrun & _).
  exists s'. exact Hrun.
Defined.

(** C7. [get_last] is [None] on a [LastValueSink], an [ArraySink], an
    [AppendingDatasetSink] and a [ScalarDatasetSink] that was not pushed
    to, and after any pushes ending with [v] it is exactly [v]; the values
    pushed to an [AppendingDatasetSink] are not [None]. After the pushes the
    store entry of a [ScalarDatasetSink] is the single value [v]. *)
Theorem C7_get_last (ds : datasets) (k : string) (b : bool)
    (vs : list PyVal) (v : PyVal) :
  (LastValueSink.get_last LastValueSink.__init__ = VNone /\
   exists s,
     run_all LastValueSink.push (vs ++ [v]) LastValueSink.__init__ =
     (s, Ok tt) /\
     LastValueSink.get_last s = v) /\
  (ArraySink.get_last ArraySink.__init__ = VNone /\
   exists s,
     run_all ArraySink.push (vs ++ [v]) ArraySink.__init__ = (s, Ok tt) /\
     ArraySink.get_last s = v) /\
  (AppendingDatasetSink.get_last (AppendingDatasetSink.build k b) = VNone /\
   (Forall (fun x => x <> VNone) (vs ++ [v]) ->
    exists ds' s,
      run_all AppendingDatasetSink.push (vs ++ [v])
        (ds, AppendingDatasetSink.build k b) = ((ds', s), Ok tt) /\
      AppendingDatasetSink.get_last s = v)) /\
  (ScalarDatasetSink.get_last (ds, ScalarDatasetSink.build k b) =
   ((ds, ScalarDatasetSink.build k b), Ok VNone) /\
   exists ds' s,
     run_all ScalarDatasetSink.push (vs ++ [v])
       (ds, ScalarDatasetSink.build k b) = ((ds', s), Ok tt) /\
     ds' = <[k := HasEnvironment.mk v b]> ds /\
     ScalarDatasetSink.get_last (ds', s) = ((ds', s), Ok v)).
Proof.
  repeat split.
  - eexists. split; [apply LastValueSink_push_all|reflexivity].
  - eexists. split; [apply ArraySink_push_all|].
    simpl. apply ArraySink_get_last_snoc.
  - intros Hvs. destruct (vs ++ [v]) as [|x xs] eqn:E; [by destruct vs|].
    eexists _, _. split; [by apply AppendingDatasetSink_push_all|].
    unfold AppendingDatasetSink.get_last. simpl.
    by rewrite <- (last_cons_default xs x VNone), <- E, last_last.
  - eexists _, _. split; [apply ScalarDatasetSink_push_all|].
    split; [reflexivity|].
    unfold ScalarDatasetSink.get_last, bind, gets, on_fst.
    cbn [fst snd ScalarDatasetSink.has_pushed ScalarDatasetSink.key].
    unfold HasEnvironment.get_dataset. by rewrite lookup_insert_eq.
Qed.

Lemma C7_get_last_witness :
  exists ds' s,
    run_all AppendingDatasetSink.push ([VInt 1; VInt 2] ++ [VInt 3])
      (∅, AppendingDatasetSink.build "data" true) = ((ds', s), Ok tt) /\
    AppendingDatasetSink.get_last s = VInt 3.
Proof.
  assert (H : Forall (fun x => x <> VNone) ([VInt 1; VInt 2] ++ [VInt 3]))
    by (repeat constructor; discriminate).
  destruct (C7_get_last ∅ "data" true [VInt 1; VInt 2] (VInt 3))
    as (_ & _ & (_ & Happ) & _).
  exact (Happ H).
Defined.

(** C8. After the pushes [vs] to an [ArraySink], [get_all] returns exactly
    [vs], in push order; after [clear], [get_all] returns [[]]. *)
Theorem C8_array_sink (vs : list PyVal) :
  exists s,
    run_all ArraySink.push vs ArraySink.__init__ = (s, Ok tt) /\
    ArraySink.get_all s = vs /\
    exists s',
      ArraySink.clear s = (s', Ok tt) /\
      ArraySink.get_all s' = [].
Proof.
  eexists. split; [apply ArraySink_push_all|]. split; [reflexivity|].
  eexists. split; reflexivity.
Qed.

(** ** Channels *)

(** *** Pushing without a sink *)

Lemma ResultChannel_push_no_sink dump_json (ds : datasets) b v :
  ResultChannel.sink b = None ->
  ResultChannel.push dump_json v (ds, b) =
  ((ds, b),
   match _coerce_to_type dump_json (ResultChannel.class b) v with
   | Ok _ => Ok tt
   | Raise e => Raise e
   end).
Proof.
  intros Hs. unfold ResultChannel.push, bind, gets, lift. cbn [snd].
  destruct (_coerce_to_type dump_json (ResultChannel.class b) v);
    [|reflexivity].
  by rewrite Hs.
Qed.

Lemma NumericChannel_push_eq dump_json (ds : datasets) n v :
  NumericChannel.push dump_json v (ds, n) =
  NumericChannel._push dump_json v
    (ds, NumericChannel.set__last_value v
           (NumericChannel.set__value_pushed true n)).
Proof. reflexivity. Qed.

Lemma NumericChannel__push_cache dump_json (ds : datasets) n v :
  let n' := snd (fst (NumericChannel._push dump_json v (ds, n))) in
  NumericChannel._value_pushed n' = NumericChannel._value_pushed n /\
  NumericChannel._last_value n' = NumericChannel._last_value n.
Proof.
  unfold NumericChannel._push.
  destruct (ResultChannel.push dump_json v (ds, NumericChannel.base n))
    as [[ds' b'] r].
  split; reflexivity.
Qed.

Lemma NumericChannel_push_cache dump_json (st : datasets * NumericChannel.t) v :
  let n' := snd (fst (NumericChannel.push dump_json v st)) in
  NumericChannel._value_pushed n' = true /\
  NumericChannel._last_value n' = v.
Proof.
  destruct st as [ds n]. rewrite NumericChannel_push_eq.
  destruct (NumericChannel__push_cache dump_json ds
              (NumericChannel.set__last_value v
                 (NumericChannel.set__value_pushed true n)) v) as [H1 H2].
  cbn zeta. rewrite H1, H2. split; reflexivity.
Qed.

Lemma after_pushes_snoc dump_json vs v st :
  after_pushes dump_json (vs ++ [v]) st =
  fst (NumericChannel.push dump_json v (after_pushes dump_json vs st)).
Proof. unfold after_pushes. by rewrite fold_left_app. Qed.

(** C1 (as the code has it). On a channel of any class with no sink
    attached, [is_muted()] is false, and [push(value)] touches neither a
    sink nor the dataset store and leaves the channel without a sink. It
    evaluates [_coerce_to_type(value)] before it looks at the sink, and
    raises exactly when that raises, which on an [OpaqueChannel] is never.
    On a channel that is not a [NumericChannel] the push leaves the channel
    as it was; on a [NumericChannel] it records the raw value in the
    last-value cache and sets the has-been-pushed flag, whether or not the
    coercion raises. *)
Theorem C1_push_without_sink (dump_json : PyVal -> result PyVal)
    (ds : datasets) (c : Channel.t) (value : PyVal)
    (Hsink : Channel.sink c = None) :
  Channel.is_muted c = false /\
  exists c',
    Channel.push dump_json value (ds, c) =
    ((ds, c'),
     match _coerce_to_type dump_json
             (ResultChannel.class (Channel.base c)) value with
     | Ok _ => Ok tt
     | Raise e => Raise e
     end) /\
    Channel.base c' = Channel.base c /\
    Channel.sink c' = None /\
    (ResultChannel.class (Channel.base c) = cOpaqueChannel ->
     snd (Channel.push dump_json value (ds, c)) = Ok tt) /\
    match c with
    | Channel.Plain _ => c' = c
    | Channel.Numeric n =>
        c' = Channel.Numeric
               (NumericChannel.set__last_value value
                  (NumericChannel.set__value_pushed true n)) /\
        exists n', c' = Channel.Numeric n' /\
                   NumericChannel.get_last n' = Ok value
    end.
Proof.
  split.
  { unfold Channel.is_muted, ResultChannel.is_muted.
    unfold Channel.sink in Hsink. by rewrite Hsink. }
  destruct c as [b|n]; unfold Channel.sink in Hsink; cbn [Channel.base] in *.
  - exists (Channel.Plain b). unfold Channel.push.
    rewrite ResultChannel_push_no_sink by done.
    repeat split; try done.
    intros Hk. cbn [snd]. by rewrite Hk.
  - eexists. unfold Channel.push. rewrite NumericChannel_push_eq.
    unfold NumericChannel._push.
    cbn [NumericChannel.base NumericChannel.set__last_value
         NumericChannel.set__value_pushed].
    rewrite ResultChannel_push_no_sink by done.
    split; [reflexivity|].
    destruct n as [b mn mx sc un vp lv]; cbn in *.
    repeat split; try done.
    + intros Hk. by rewrite Hk.
    + eexists. split; reflexivity.
Qed.

Lemma C1_push_without_sink_witness :
  snd (Channel.push Sample.dump_json (VDict ∅)
         (∅, Channel.Plain
               (ResultChannel.__init__ cOpaqueChannel "readout/p" "" None
                  true))) = Ok tt.
Proof.
  destruct (C1_push_without_sink Sample.dump_json ∅
              (Channel.Plain
                 (ResultChannel.__init__ cOpaqueChannel "readout/p" "" None
                    true))
              (VDict ∅) eq_refl) as (_ & c' & _ & _ & _ & H & _).
  exact (H eq_refl).
Defined.

(** C1 as stated fails: a [FloatChannel] with no sink attached raises
    [ValueError] on the push of ["abc"], and the push is observable
    afterwards, [get_last()] returning ["abc"] where it raised before. *)
Lemma C1_counterexample :
  exists n n',
    NumericChannel.__init__ Sample.units Sample.dump_json cFloatChannel
      "readout/p" "" None VNone VNone (Some ""%string) VNone = Ok n /\
    Channel.sink (Channel.Numeric n) = None /\
    Channel.push Sample.dump_json (VStr "abc") (∅, Channel.Numeric n) =
    ((∅, Channel.Numeric n'), Raise ValueError) /\
    NumericChannel.get_last n = Raise RuntimeError /\
    NumericChannel.get_last n' = Ok (VStr "abc").
Proof.
  eexists _, _. split; [reflexivity|].
  split; [reflexivity|]. split; [vm_compute; reflexivity|].
  split; reflexivity.
Qed.

(** *** The last-value cache of a NumericChannel *)

Lemma NumericChannel_init_unpushed units dump_json k p d h mn mx u sc n :
  NumericChannel.__init__ units dump_json k p d h mn mx u sc = Ok n ->
  NumericChannel._value_pushed n = false.
Proof.
  unfold NumericChannel.__init__.
  destruct (NumericChannel.resolve_scale units u sc); [|discriminate].
  destruct (_coerce_to_type dump_json k (VInt 0)); [|discriminate].
  intros [= <-]. reflexivity.
Qed.

Lemma get_last_after_pushes dump_json vs v st :
  NumericChannel.get_last (snd (after_pushes dump_json (vs ++ [v]) st)) =
  Ok v.
Proof.
  rewrite after_pushes_snoc.
  destruct (NumericChannel_push_cache dump_json
              (after_pushes dump_json vs st) v) as [H1 H2].
  unfold NumericChannel.get_last. cbn zeta in H1, H2. by rewrite H1, H2.
Qed.

(** C4. [push(raw_value)] on a [NumericChannel] is the dispatch towards the
    sink run on the channel whose has-been-pushed flag is already set and
    whose cached last value is already [raw_value]; the dispatch does not
    touch the cache, so both hold after the push whether or not the
    dispatch raised. [get_last()] raises [RuntimeError] exactly while the
    flag is unset, which on a channel as constructed is exactly while no
    push was made, and otherwise returns the raw value of the last push; it
    reads the cache only, whatever sink is attached. *)
Theorem C4_numeric_channel_cache (units : string -> option PyVal)
    (dump_json : PyVal -> result PyVal)
    (ds : datasets) (n : NumericChannel.t) (raw_value : PyVal) :
  NumericChannel.push dump_json raw_value (ds, n) =
  NumericChannel._push dump_json raw_value
    (ds, NumericChannel.set__last_value raw_value
           (NumericChannel.set__value_pushed true n)) /\
  (forall st,
     let n' := snd (fst (NumericChannel._push dump_json raw_value st)) in
     NumericChannel._value_pushed n' = NumericChannel._value_pushed (snd st) /\
     NumericChannel._last_value n' = NumericChannel._last_value (snd st)) /\
  (let n' := snd (fst (NumericChannel.push dump_json raw_value (ds, n))) in
   NumericChannel._value_pushed n' = true /\
   NumericChannel._last_value n' = raw_value /\
   NumericChannel.get_last n' = Ok raw_value) /\
  (NumericChannel.get_last n = Raise RuntimeError <->
   NumericChannel._value_pushed n = false) /\
  (NumericChannel._value_pushed n = true ->
   NumericChannel.get_last n = Ok (NumericChannel._last_value n)) /\
  (forall o sk,
     NumericChannel.get_last
       (NumericChannel.with_base
          (ResultChannel.with_sink o (NumericChannel.base n)) n) =
     NumericChannel.get_last n /\
     NumericChannel.get_last
       (NumericChannel.with_base
          (fst (ResultChannel.set_sink sk (NumericChannel.base n))) n) =
     NumericChannel.get_last n) /\
  (forall k p d h mn mx u sc c vs,
     NumericChannel.__init__ units dump_json k p d h mn mx u sc = Ok c ->
     (NumericChannel.get_last (snd (after_pushes dump_json vs (ds, c))) =
      Raise RuntimeError <-> vs = []) /\
     (forall vs' v, vs = vs' ++ [v] ->
        NumericChannel.get_last (snd (after_pushes dump_json vs (ds, c))) =
        Ok v)).
Proof.
  split; [reflexivity|].
  split; [intros [ds0 n0]; apply NumericChannel__push_cache|].
  split.
  { destruct (NumericChannel_push_cache dump_json (ds, n) raw_value)
      as [H1 H2].
    cbn zeta in *. unfold NumericChannel.get_last. by rewrite H1, H2. }
  split.
  { unfold NumericChannel.get_last.
    destruct (NumericChannel._value_pushed n); simpl; split; congruence. }
  split.
  { unfold NumericChannel.get_last. by intros ->. }
  split; [by split|].
  intros k p d h mn mx u sc c vs Hc. split.
  - destruct (list_snoc_cases vs) as [E | (vs' & v & E)].
    + subst vs. simpl. unfold NumericChannel.get_last.
      by rewrite (NumericChannel_init_unpushed _ _ _ _ _ _ _ _ _ _ _ Hc).
    + subst vs. rewrite get_last_after_pushes. split; [discriminate|].
      intros E. by destruct vs'.
  - intros vs' v ->. apply get_last_after_pushes.
Qed.

Lemma C4_numeric_channel_cache_witness :
  exists c,
    NumericChannel.__init__ Sample.units Sample.dump_json cIntChannel
      "readout/n" "" None VNone VNone (Some ""%string) VNone = Ok c /\
    NumericChannel.get_last
      (snd (after_pushes Sample.dump_json [VInt 1; VInt 2] (∅, c))) =
    Ok (VInt 2).
Proof.
  eexists. split; [reflexivity|].
  match goal with
  | |- NumericChannel.get_last (snd (after_pushes _ _ (_, ?c))) = _ =>
      destruct (C4_numeric_channel_cache Sample.units Sample.dump_json ∅ c
                  (VInt 1)) as (_ & _ & _ & _ & _ & _ & H);
      destruct (H cIntChannel "readout/n"%string ""%string None VNone VNone
                  (Some ""%string) VNone c [VInt 1; VInt 2] eq_refl)
        as [_ H2];
      exact (H2 [VInt 1] (VInt 2) eq_refl)
  end.
Defined.

(** *** Unit and scale of a NumericChannel *)

Lemma NumericChannel_init_ok units dump_json k p d h mn mx u sc s :
  k = cFloatChannel \/ k = cIntChannel ->
  NumericChannel.resolve_scale units u sc = Ok s ->
  exists n,
    NumericChannel.__init__ units dump_json k p d h mn mx u sc = Ok n /\
    NumericChannel.scale n = s /\
    NumericChannel.unit n = u /\
    NumericChannel.min n = mn /\
    NumericChannel.max n = mx /\
    NumericChannel.base n = ResultChannel.__init__ k p d h true.
Proof.
  intros Hk Hs. unfold NumericChannel.__init__. rewrite Hs.
  destruct Hk as [-> | ->]; eexists; (split; [reflexivity|]); by repeat split.
Qed.

Lemma String_eqb_false (u : string) : u <> ""%string -> String.eqb u "" = false.
Proof. intros H. by apply String.eqb_neq. Qed.

(** C5. Constructing a [FloatChannel] or an [IntChannel] with no scale and
    a non-empty unit looks the unit up in the unit table: a unit the table
    knows gives its entry as the scale (the table's [kHz] for
    [unit="kHz"]), a unit it does not know makes the construction fail
    with [KeyError], for every channel class. A scale that is given is
    used as it is, whatever the unit. *)
Theorem C5_scale_resolution (units : string -> option PyVal)
    (dump_json : PyVal -> result PyVal) (k : cls) (path description : string)
    (display_hints : option (gmap string PyVal)) (min max : PyVal)
    (Hk : k = cFloatChannel \/ k = cIntChannel) :
  (forall unit s, unit <> ""%string -> units unit = Some s ->
     exists n,
       NumericChannel.__init__ units dump_json k path description
         display_hints min max (Some unit) VNone = Ok n /\
       NumericChannel.scale n = s) /\
  (forall s, units "kHz" = Some s ->
     exists n,
       NumericChannel.__init__ units dump_json k path description
         display_hints min max (Some "kHz"%string) VNone = Ok n /\
       NumericChannel.scale n = s) /\
  (forall unit k', unit <> ""%string -> units unit = None ->
     NumericChannel.__init__ units dump_json k' path description
       display_hints min max (Some unit) VNone = Raise KeyError) /\
  (forall scale u, scale <> VNone ->
     exists n,
       NumericChannel.__init__ units dump_json k path description
         display_hints min max u scale = Ok n /\
       NumericChannel.scale n = scale).
Proof.
  assert (Hlookup : forall unit s, unit <> ""%string -> units unit = Some s ->
            exists n,
              NumericChannel.__init__ units dump_json k path description
                display_hints min max (Some unit) VNone = Ok n /\
              NumericChannel.scale n = s).
  { intros unit s Hunit Hs.
    destruct (NumericChannel_init_ok units dump_json k path description
                display_hints min max (Some unit) VNone s Hk)
      as (n & Hn & Hsc & _).
    { unfold NumericChannel.resolve_scale. cbn [is_None].
      by rewrite String_eqb_false, Hs. }
    by exists n. }
  split; [exact Hlookup|].
  split; [intros s Hs; by apply Hlookup|]. split.
  - intros unit k' Hunit Hs.
    unfold NumericChannel.__init__, NumericChannel.resolve_scale.
    cbn [is_None]. by rewrite String_eqb_false, Hs.
  - intros scale u Hsc.
    destruct (NumericChannel_init_ok units dump_json k path description
                display_hints min max u scale scale Hk)
      as (n & Hn & Hsc' & _).
    { unfold NumericChannel.resolve_scale.
      apply is_None_false in Hsc. by rewrite Hsc. }
    by exists n.
Qed.

Lemma C5_scale_resolution_witness :
  (exists n,
     NumericChannel.__init__ Sample.units Sample.dump_json cFloatChannel
       "readout/f" "" None VNone VNone (Some "kHz"%string) VNone = Ok n /\
     NumericChannel.scale n = VFloat (S754_finite false 8796093022208000 (-43)))
  /\
  NumericChannel.__init__ Sample.no_units Sample.dump_json cFloatChannel
    "readout/f" "" None VNone VNone (Some "kHz"%string) VNone =
  Raise KeyError.
Proof.
  split.
  - destruct (C5_scale_resolution Sample.units Sample.dump_json
                cFloatChannel "readout/f" "" None VNone VNone
                (or_introl eq_refl)) as (H & _).
    exact (H "kHz"%string _ ltac:(discriminate) eq_refl).
  - destruct (C5_scale_resolution Sample.no_units Sample.dump_json
                cFloatChannel "readout/f" "" None VNone VNone
                (or_introl eq_refl)) as (_ & _ & H & _).
    exact (H "kHz"%string cFloatChannel ltac:(discriminate) eq_refl).
Defined.

(** *** describe *)

Lemma ResultChannel_describe_eq b ty :
  _get_type_string (ResultChannel.class b) = Ok ty ->
  ResultChannel.describe b =
  Ok (let desc : gmap string PyVal :=
        <["type"%string := VStr ty]>
          (<["description"%string := VStr (ResultChannel.description b)]>
             (<["path"%string := VStr (ResultChannel.path b)]> ∅)) in
      if bool_decide (ResultChannel.display_hints b = ∅) then desc
      else <["display_hints"%string :=
               VDict (ResultChannel.display_hints b)]> desc).
Proof. intros H. unfold ResultChannel.describe. by rewrite H. Qed.

Lemma NumericChannel_describe_eq n d :
  ResultChannel.describe (NumericChannel.base n) = Ok d ->
  NumericChannel.describe n =
  Ok (let result := <["scale"%string := NumericChannel.scale n]> d in
      let result :=
        if negb (is_None (NumericChannel.min n))
        then <["min"%string := NumericChannel.min n]> result else result in
      let result :=
        if negb (is_None (NumericChannel.max n))
        then <["max"%string := NumericChannel.max n]> result else result in
      match NumericChannel.unit n with
      | Some u => <["unit"%string := VStr u]> result
      | None => result
      end).
Proof. intros H. unfold NumericChannel.describe. by rewrite H. Qed.

Lemma NumericChannel_describe_scale n d :
  NumericChannel.describe n = Ok d ->
  d !! "scale"%string = Some (NumericChannel.scale n).
Proof.
  unfold NumericChannel.describe.
  destruct (ResultChannel.describe (NumericChannel.base n)) as [d0|];
    [|discriminate].
  intros [= <-].
  destruct (NumericChannel.unit n), (is_None (NumericChannel.min n)),
    (is_None (NumericChannel.max n)); cbn [negb];
    by repeat (rewrite lookup_insert_ne by discriminate);
       rewrite lookup_insert_eq.
Qed.

(** C10. A [FloatChannel] or [IntChannel] constructed with no scale and
    the empty unit has the float [1.0] as its scale, and [describe()] gives
    it under [scale]. The unit table plays no part in the construction when
    the unit is empty or a scale is given: whatever the table holds, even
    nothing, the construction gives the same result. *)
Theorem C10_default_scale (units : string -> option PyVal)
    (dump_json : PyVal -> result PyVal) (k : cls) (path description : string)
    (display_hints : option (gmap string PyVal)) (min max : PyVal)
    (Hk : k = cFloatChannel \/ k = cIntChannel) :
  NumericChannel.one = S754_finite false 4503599627370496 (-52) /\
  Builtins.float (VStr "1.0") = Ok (VFloat NumericChannel.one) /\
  (exists n d,
     NumericChannel.__init__ units dump_json k path description
       display_hints min max (Some ""%string) VNone = Ok n /\
     NumericChannel.scale n = VFloat NumericChannel.one /\
     NumericChannel.describe n = Ok d /\
     d !! "scale"%string = Some (VFloat NumericChannel.one)) /\
  (forall units' k' scale,
     NumericChannel.__init__ units' dump_json k' path description
       display_hints min max (Some ""%string) scale =
     NumericChannel.__init__ units dump_json k' path description
       display_hints min max (Some ""%string) scale) /\
  (forall units' k' unit scale, scale <> VNone ->
     NumericChannel.__init__ units' dump_json k' path description
       display_hints min max unit scale =
     NumericChannel.__init__ units dump_json k' path description
       display_hints min max unit scale).
Proof.
  split; [reflexivity|]. split; [reflexivity|]. split.
  - destruct (NumericChannel_init_ok units dump_json k path description
                display_hints min max (Some ""%string) VNone
                (VFloat NumericChannel.one) Hk eq_refl)
      as (n & Hn & Hsc & _ & _ & _ & Hb).
    assert (exists ty, _get_type_string k = Ok ty) as [ty Hty]
      by (destruct Hk as [-> | ->]; eexists; reflexivity).
    assert (Hd : exists d, NumericChannel.describe n = Ok d).
    { eexists. apply NumericChannel_describe_eq.
      apply ResultChannel_describe_eq with (ty := ty). by rewrite Hb. }
    destruct Hd as [d Hd]. exists n, d.
    split; [done|]. split; [done|]. split; [done|].
    rewrite <- Hsc. by apply NumericChannel_describe_scale.
  - split.
    + intros units' k' scale. unfold NumericChannel.__init__.
      by destruct scale.
    + intros units' k' unit scale Hsc. apply is_None_false in Hsc.
      unfold NumericChannel.__init__, NumericChannel.resolve_scale.
      by rewrite Hsc.
Qed.

Lemma C10_default_scale_witness :
  exists n,
    NumericChannel.__init__ Sample.no_units Sample.dump_json cIntChannel
      "readout/n" "" None VNone VNone (Some ""%string) VNone = Ok n /\
    NumericChannel.scale n = VFloat NumericChannel.one.
Proof.
  destruct (C10_default_scale Sample.no_units Sample.dump_json cIntChannel
              "readout/n" "" None VNone VNone (or_intror eq_refl))
    as (_ & _ & (n & d & Hn & Hs & _) & _).
  exists n. split; [exact Hn | exact Hs].
Defined.

(** C2 (as the code has it). On a channel whose class gives a type string,
    [ResultChannel.describe()] returns the mapping with exactly the keys
    [path], [description] and [type] (the type string), and
    [display_hints] exactly when the hints are non-empty. On a
    [NumericChannel], [describe()] extends that mapping: it always holds
    [scale], holds [min] and [max] exactly when they are not [None], and
    holds [unit] exactly when the unit is not [None], so also for the empty
    unit; all other keys are as in the base mapping. *)
Theorem C2_describe (b : ResultChannel.t) (ty : string)
    (Hty : _get_type_string (ResultChannel.class b) = Ok ty) :
  exists d : gmap string PyVal,
    ResultChannel.describe b = Ok d /\
    dom d =
      ({["path"; "description"; "type"]} : gset string) ∪
      (if bool_decide (ResultChannel.display_hints b = ∅) then ∅
       else {["display_hints"%string]}) /\
    d !! "path"%string = Some (VStr (ResultChannel.path b)) /\
    d !! "description"%string = Some (VStr (ResultChannel.description b)) /\
    d !! "type"%string = Some (VStr ty) /\
    d !! "display_hints"%string =
      (if bool_decide (ResultChannel.display_hints b = ∅) then None
       else Some (VDict (ResultChannel.display_hints b))) /\
    forall n : NumericChannel.t,
      NumericChannel.base n = b ->
      exists dn : gmap string PyVal,
        NumericChannel.describe n = Ok dn /\
        dom dn =
          dom d ∪ {["scale"%string]} ∪
          (if is_None (NumericChannel.min n) then ∅ else {["min"%string]}) ∪
          (if is_None (NumericChannel.max n) then ∅ else {["max"%string]}) ∪
          (match NumericChannel.unit n with
           | Some _ => {["unit"%string]}
           | None => ∅
           end) /\
        dn !! "scale"%string = Some (NumericChannel.scale n) /\
        dn !! "min"%string =
          (if is_None (NumericChannel.min n) then None
           else Some (NumericChannel.min n)) /\
        dn !! "max"%string =
          (if is_None (NumericChannel.max n) then None
           else Some (NumericChannel.max n)) /\
        dn !! "unit"%string = VStr <$> NumericChannel.unit n /\
        forall key : string,
          key ∉ ({["scale"; "min"; "max"; "unit"]} : gset string) ->
          dn !! key = d !! key.
Proof.
  pose proof (ResultChannel_describe_eq b ty Hty) as Hdesc.
  cbn zeta in Hdesc.
  set (d0 := (<["type"%string := VStr ty]>
                (<["description"%string := VStr (ResultChannel.description b)]>
                   (<["path"%string := VStr (ResultChannel.path b)]> ∅)))
             : gmap string PyVal) in Hdesc.
  assert (Hd0 : dom d0 = ({["path"; "description"; "type"]} : gset string)).
  { unfold d0. rewrite !dom_insert_L, dom_empty_L. clear. set_solver. }
  assert (Hpath : d0 !! "path"%string = Some (VStr (ResultChannel.path b))).
  { unfold d0.
    by rewrite !lookup_insert_ne, lookup_insert_eq by discriminate. }
  assert (Hdescr : d0 !! "description"%string =
                   Some (VStr (ResultChannel.description b))).
  { unfold d0.
    by rewrite !lookup_insert_ne, lookup_insert_eq by discriminate. }
  assert (Htype : d0 !! "type"%string = Some (VStr ty)).
  { unfold d0. by rewrite lookup_insert_eq. }
  clearbody d0.
  set (d := if bool_decide (ResultChannel.display_hints b = ∅) then d0
            else <["display_hints"%string :=
                     VDict (ResultChannel.display_hints b)]> d0) in Hdesc.
  assert (Hlk : forall key : string, key <> "display_hints"%string ->
                  d !! key = d0 !! key).
  { intros key Hkey. unfold d. case_bool_decide; [done|].
    by rewrite lookup_insert_ne. }
  assert (Hdom : dom d =
            ({["path"; "description"; "type"]} : gset string) ∪
            (if bool_decide (ResultChannel.display_hints b = ∅) then ∅
             else {["display_hints"%string]})).
  { unfold d. case_bool_decide; rewrite ?dom_insert_L, Hd0; clear;
      set_solver. }
  assert (Hhints : d !! "display_hints"%string =
            (if bool_decide (ResultChannel.display_hints b = ∅) then None
             else Some (VDict (ResultChannel.display_hints b)))).
  { unfold d. case_bool_decide; [|by rewrite lookup_insert_eq].
    apply not_elem_of_dom. rewrite Hd0. clear. set_solver. }
  assert (Hnone : forall key : string,
            key ∈ ({["scale"; "min"; "max"; "unit"]} : gset string) ->
            d !! key = None).
  { intros key Hkey. apply not_elem_of_dom. rewrite Hdom.
    clear -Hkey. case_bool_decide; set_solver. }
  clearbody d.
  exists d. split; [exact Hdesc|]. split; [exact Hdom|].
  split; [by rewrite Hlk|]. split; [by rewrite Hlk|].
  split; [by rewrite Hlk|]. split; [exact Hhints|].
  intros n Hn.
  pose proof (NumericChannel_describe_eq n d) as Hn'.
  rewrite Hn in Hn'. specialize (Hn' Hdesc). cbn zeta in Hn'.
  eexists. split; [exact Hn'|].
  clear Hn' Hn Hdesc Hdom Hhints Hlk Hpath Hdescr Htype Hd0.
  destruct n as [b' mn mx sc un vp lv].
  cbn [NumericChannel.min NumericChannel.max NumericChannel.scale
       NumericChannel.unit].
  destruct un as [u|], (is_None mn), (is_None mx);
    cbn [negb fmap option_fmap option_map].
  all: split; [rewrite ?dom_insert_L; clear; set_solver|].
  all: split;
    [by rewrite ?lookup_insert_ne, ?lookup_insert_eq by discriminate|].
  all: split;
    [rewrite ?lookup_insert_ne by discriminate;
     first [by rewrite lookup_insert_eq | apply Hnone; clear; set_solver]|].
  all: split;
    [rewrite ?lookup_insert_ne by discriminate;
     first [by rewrite lookup_insert_eq | apply Hnone; clear; set_solver]|].
  all: split;
    [rewrite ?lookup_insert_ne by discriminate;
     first [by rewrite lookup_insert_eq | apply Hnone; clear; set_solver]|].
  all: intros key Hkey; rewrite ?lookup_insert_ne; try done.
  all: clear -Hkey; set_solver.
Qed.

Lemma C2_describe_witness :
  exists d : gmap string PyVal,
    ResultChannel.describe
      (ResultChannel.__init__ cOpaqueChannel "readout/p" "" None true) =
    Ok d /\
    dom d = ({["path"; "description"; "type"]} : gset string) ∪ ∅.
Proof.
  destruct (C2_describe
              (ResultChannel.__init__ cOpaqueChannel "readout/p" "" None true)
              "opaque" eq_refl) as (d & Hd & Hdom & _).
  exists d. split; [exact Hd | exact Hdom].
Defined.

(** C2 as stated fails: the mapping that [describe()] returns for a
    [FloatChannel] constructed with the default, empty unit holds the key
    [unit], with the empty string. *)
Lemma C2_counterexample :
  exists n d,
    NumericChannel.__init__ Sample.units Sample.dump_json cFloatChannel
      "readout/p" "" None VNone VNone (Some ""%string) VNone = Ok n /\
    NumericChannel.unit n = Some ""%string /\
    NumericChannel.describe n = Ok d /\
    d !! "unit"%string = Some (VStr "").
Proof.
  eexists _, _. split; [reflexivity|]. split; [reflexivity|].
  split; [reflexivity|]. vm_compute. reflexivity.
Qed.

(** *** The strings that [float()] and [int()] read spell a number *)

Lemma digit_of_digit c d :
  Builtins.digit_of c = Some d -> NumericLiteral.digit c.
Proof.
  unfold Builtins.digit_of, NumericLiteral.digit.
  destruct (48 <=? c)%N eqn:E1, (c <=? 57)%N eqn:E2; cbn; try discriminate.
  intros _. apply N.leb_le in E1, E2. done.
Qed.

Lemma is_space_blank c :
  Builtins.is_space c = true -> NumericLiteral.blank c.
Proof.
  unfold Builtins.is_space, NumericLiteral.blank.
  rewrite orb_true_iff, andb_true_iff, !N.leb_le, N.eqb_eq. tauto.
Qed.

Lemma drop_spaces_spec l :
  exists pre,
    l = pre ++ Builtins.drop_spaces l /\ Forall NumericLiteral.blank pre.
Proof.
  induction l as [|c l IH]; cbn.
  - by exists [].
  - destruct (Builtins.is_space c) eqn:E; [|by exists []].
    destruct IH as (pre & Hl & Hpre). exists (c :: pre). split.
    + cbn. by rewrite <- Hl.
    + constructor; [by apply is_space_blank|done].
Qed.

Lemma strip_padded l : NumericLiteral.padded (Builtins.strip l) l.
Proof.
  unfold Builtins.strip, NumericLiteral.padded.
  destruct (drop_spaces_spec l) as (pre & Hl & Hpre).
  destruct (drop_spaces_spec (rev (Builtins.drop_spaces l)))
    as (q & Hq & Hpost).
  apply (f_equal (@rev N)) in Hq.
  rewrite rev_involutive, rev_app_distr in Hq.
  exists pre, (rev q). split; [|split; [done|]].
  - by rewrite <- Hq.
  - by apply List.Forall_rev.
Qed.

Lemma digits_tail_spec n : forall l acc k v m rest,
  (length l <= n)%nat ->
  Builtins.digits_tail acc k l = (v, m, rest) ->
  exists r, l = r ++ rest /\ NumericLiteral.digits_rest r.
Proof.
  induction n as [|n IH]; intros l acc k v m rest Hlen H.
  - destruct l; [|cbn in Hlen; lia]. cbn in H. injection H as <- <- <-.
    exists []. split; [done|constructor].
  - destruct l as [|c l'].
    { cbn in H. injection H as <- <- <-. exists []. split; [done|constructor]. }
    cbn [Builtins.digits_tail] in H. cbn in Hlen.
    destruct (Builtins.digit_of c) as [d|] eqn:Ec.
    + destruct (IH l' _ _ _ _ _ ltac:(lia) H) as (r & -> & Hr).
      exists (c :: r). split; [done|].
      constructor; [by apply (digit_of_digit c d)|done].
    + destruct (c =? Unicode.chr "_")%N eqn:Eu.
      * apply N.eqb_eq in Eu. subst c.
        destruct l' as [|c2 l''].
        { injection H as <- <- <-. exists []. split; [done|constructor]. }
        cbn in Hlen. destruct (Builtins.digit_of c2) as [d|] eqn:E2.
        -- destruct (IH l'' _ _ _ _ _ ltac:(lia) H) as (r & -> & Hr).
           exists (Unicode.chr "_" :: c2 :: r). split; [done|].
           apply NumericLiteral.digits_rest_underscore;
             [by apply (digit_of_digit c2 d)|done].
        -- injection H as <- <- <-. exists []. split; [done|constructor].
      * injection H as <- <- <-. exists []. split; [done|constructor].
Qed.

Lemma digitpart_spec l v m rest :
  Builtins.digitpart l = Some (v, m, rest) ->
  exists d, l = d ++ rest /\ NumericLiteral.digitpart d.
Proof.
  unfold Builtins.digitpart. destruct l as [|c l']; [discriminate|].
  destruct (Builtins.digit_of c) as [d|] eqn:Ec; [|discriminate].
  intros [= H].
  destruct (digits_tail_spec (length l') l' _ _ _ _ _ ltac:(lia) H)
    as (r & -> & Hr).
  exists (c :: r). split; [done|].
  exists c, r. split; [by apply (digit_of_digit c d)|done].
Qed.

Lemma sign_spec l neg l' :
  Builtins.sign l = (neg, l') ->
  exists sg, NumericLiteral.sign sg /\ l = sg ++ l'.
Proof.
  unfold Builtins.sign, NumericLiteral.sign. destruct l as [|c l0].
  - intros [= <- <-]. exists []. by split; [left|].
  - destruct (c =? Unicode.chr "-")%N eqn:E1.
    { apply N.eqb_eq in E1. subst c. intros [= <- <-].
      exists [Unicode.chr "-"]. by split; [right; right|]. }
    destruct (c =? Unicode.chr "+")%N eqn:E2.
    { apply N.eqb_eq in E2. subst c. intros [= <- <-].
      exists [Unicode.chr "+"]. by split; [right; left|]. }
    intros [= <- <-]. exists []. by split; [left|].
Qed.

Lemma lower_spec a : Builtins.lower a = a \/ (a + 32)%N = Builtins.lower a.
Proof.
  unfold Builtins.lower.
  destruct ((65 <=? a)%N && (a <=? 90)%N); [by right|by left].
Qed.

Lemma exponent_end_spec l x :
  Builtins.exponent_end l = Some x -> l = [] \/ NumericLiteral.exponent l.
Proof.
  unfold Builtins.exponent_end. destruct l as [|c l']; [by left|].
  destruct (Builtins.lower c =? Unicode.chr "e")%N eqn:Ee; [|discriminate].
  apply N.eqb_eq in Ee.
  destruct (Builtins.sign l') as [neg l''] eqn:Es.
  destruct (Builtins.digitpart l'') as [[[e k] [|? ?]]|] eqn:Ed;
    try discriminate.
  intros _. right.
  destruct (sign_spec _ _ _ Es) as (sg & Hsg & ->).
  destruct (digitpart_spec _ _ _ _ Ed) as (d & -> & Hd).
  exists c, sg, d. rewrite app_nil_r. split; [|done].
  destruct (lower_spec c) as [H|H]; rewrite Ee in H.
  - by left.
  - right. change (Unicode.chr "e") with 101%N in H.
    change (Unicode.chr "E") with 69%N. lia.
Qed.

Lemma finish_spec neg m nf l n :
  Builtins.finish neg m nf l = Some n ->
  l = [] \/ NumericLiteral.exponent l.
Proof.
  unfold Builtins.finish.
  destruct (Builtins.exponent_end l) as [x|] eqn:E; [|discriminate].
  intros _. by apply (exponent_end_spec l x).
Qed.

Lemma floatnumber_spec neg l n :
  Builtins.floatnumber neg l = Some n -> NumericLiteral.floatnumber l.
Proof.
  unfold Builtins.floatnumber, NumericLiteral.floatnumber.
  destruct (Builtins.digitpart l) as [[[ip k] rest]|] eqn:Ed.
  - destruct (digitpart_spec _ _ _ _ Ed) as (d & -> & Hd).
    destruct rest as [|c rest1].
    { intros H. exists d, []. split; [right; exists d; by split; [|left]|].
      by split; [left|]. }
    destruct (c =? Unicode.chr ".")%N eqn:Ec.
    + apply N.eqb_eq in Ec. subst c.
      destruct (Builtins.digitpart rest1) as [[[fr nf] rest2]|] eqn:Ed2.
      * destruct (digitpart_spec _ _ _ _ Ed2) as (d2 & -> & Hd2).
        intros H. exists (d ++ Unicode.chr "." :: d2), rest2.
        split; [left; exists d, d2; by split; [right|]|].
        split; [by apply (finish_spec _ _ _ _ _ H)|].
        by rewrite <- app_assoc.
      * intros H. exists (d ++ [Unicode.chr "."]), rest1.
        split; [right; exists d; by split; [|right]|].
        split; [by apply (finish_spec _ _ _ _ _ H)|].
        by rewrite <- app_assoc.
    + intros H. exists d, (c :: rest1).
      split; [right; exists d; by split; [|left]|].
      split; [by apply (finish_spec _ _ _ _ _ H)|done].
  - destruct l as [|c rest1]; [discriminate|].
    destruct (c =? Unicode.chr ".")%N eqn:Ec; [|discriminate].
    apply N.eqb_eq in Ec. subst c.
    destruct (Builtins.digitpart rest1) as [[[fr nf] rest2]|] eqn:Ed2;
      [|discriminate].
    destruct (digitpart_spec _ _ _ _ Ed2) as (d2 & -> & Hd2).
    intros H. exists (Unicode.chr "." :: d2), rest2.
    split; [left; exists [], d2; by split; [left|]|].
    split; [by apply (finish_spec _ _ _ _ _ H)|done].
Qed.

Lemma word_spec w l :
  map Builtins.lower l = Unicode.bytes w -> NumericLiteral.word w l.
Proof.
  unfold NumericLiteral.word. generalize (Unicode.bytes w).
  induction l as [|a l IH]; intros w' H; cbn in H; subst w'.
  - constructor.
  - constructor; [|by apply IH].
    destruct (lower_spec a) as [E|E]; [left; by rewrite E|by right].
Qed.

Lemma transform_reads l : forall t,
  Unicode.transform l = Some t -> Forall2 NumericLiteral.reads_as l t.
Proof.
  induction l as [|ch l IH]; intros t H; cbn [Unicode.transform] in H.
  - injection H as <-. constructor.
  - destruct (ch <? 127)%N eqn:E1.
    { destruct (Unicode.transform l) as [t'|]; [|discriminate].
      injection H as <-. constructor; [|by apply IH].
      left. apply N.ltb_lt in E1. split; [lia|done]. }
    apply N.ltb_ge in E1.
    assert (H128 : Unicode.Py_UNICODE_ISSPACE ch = true \/
                   is_Some (Unicode.Py_UNICODE_TODECIMAL ch) ->
                   (128 <= ch)%N).
    { intros Hc. destruct (N.eq_dec ch 127%N) as [->|]; [|lia].
      destruct Hc as [Hc|[d Hc]]; vm_compute in Hc; discriminate. }
    destruct (Unicode.Py_UNICODE_ISSPACE ch) eqn:E2.
    { destruct (Unicode.transform l) as [t'|]; [|discriminate].
      injection H as <-. constructor; [|by apply IH].
      right; left. split; [by apply H128; left|done]. }
    destruct (Unicode.Py_UNICODE_TODECIMAL ch) as [d|] eqn:E3; [|discriminate].
    destruct (Unicode.transform l) as [t'|]; [|discriminate].
    injection H as <-. constructor; [|by apply IH].
    right; right. split; [by apply H128; right|]. by exists d.
Qed.

Lemma text_reads s t :
  Builtins.text s = Some t ->
  exists cps,
    Unicode.decode (Unicode.bytes s) = Some cps /\
    Forall2 NumericLiteral.reads_as cps t.
Proof.
  unfold Builtins.text.
  destruct (Unicode.decode (Unicode.bytes s)) as [cps|]; [|discriminate].
  unfold Unicode._PyUnicode_TransformDecimalAndSpaceToASCII.
  destruct (forallb (fun ch => (ch <? 128)%N) cps) eqn:E.
  - intros [= <-]. exists cps. split; [done|].
    rewrite forallb_forall in E. clear -E.
    induction cps as [|c cps IH]; constructor.
    + left. split; [|done]. apply N.ltb_lt, E. by left.
    + apply IH. intros x Hx. apply E. by right.
  - intros H. exists cps. split; [done|by apply transform_reads].
Qed.

Lemma parse_number_sound s n :
  Builtins.parse_number s = Some n -> NumericLiteral.numeric_string s.
Proof.
  unfold Builtins.parse_number.
  destruct (Builtins.text s) as [t|] eqn:Et; [|discriminate].
  destruct (text_reads s t Et) as (cps & Hdec & Hreads).
  destruct (Builtins.sign (Builtins.strip t)) as [neg l] eqn:Es.
  destruct (sign_spec _ _ _ Es) as (sg & Hsg & Hl).
  intros H. exists cps. split; [done|].
  exists t, (Builtins.strip t). split; [done|].
  split; [apply strip_padded|].
  exists sg, l. split; [done|]. split; [|done].
  destruct (bool_decide (map Builtins.lower l = Unicode.bytes "inf")) eqn:E1.
  { right; left. apply word_spec. by apply bool_decide_eq_true in E1. }
  destruct (bool_decide (map Builtins.lower l = Unicode.bytes "infinity"))
    eqn:E2.
  { right; right; left. apply word_spec. by apply bool_decide_eq_true in E2. }
  cbn [orb] in H.
  destruct (bool_decide (map Builtins.lower l = Unicode.bytes "nan")) eqn:E3.
  { right; right; right. apply word_spec.
    by apply bool_decide_eq_true in E3. }
  left. by apply (floatnumber_spec neg l n).
Qed.

Lemma parse_int_sound s x :
  Builtins.parse_int s = Some x -> NumericLiteral.numeric_string s.
Proof.
  unfold Builtins.parse_int.
  destruct (Builtins.text s) as [t|] eqn:Et; [|discriminate].
  destruct (text_reads s t Et) as (cps & Hdec & Hreads).
  destruct (Builtins.sign (Builtins.strip t)) as [neg l] eqn:Es.
  destruct (sign_spec _ _ _ Es) as (sg & Hsg & Hl).
  destruct (Builtins.digitpart l) as [[[m k] [|? ?]]|] eqn:Ed;
    try discriminate.
  intros _. destruct (digitpart_spec _ _ _ _ Ed) as (d & -> & Hd).
  exists cps. split; [done|].
  exists t, (Builtins.strip t). split; [done|].
  split; [apply strip_padded|].
  exists sg, (d ++ []). split; [done|]. split; [|done].
  left. exists d, []. split; [right; exists d; by split; [|left]|].
  by split; [left|].
Qed.

(** A string that spells a number holds a decimal digit or the letter n. *)

Lemma digitpart_has_digit d :
  NumericLiteral.digitpart d -> Exists NumericLiteral.digit d.
Proof. intros (a & r & Ha & _ & ->). by constructor. Qed.

Lemma floatvalue_has body :
  NumericLiteral.floatvalue body ->
  Exists (fun a => NumericLiteral.digit a \/ a = Unicode.chr "n" \/
                   a = Unicode.chr "N") body.
Proof.
  intros (sg & r & _ & Habs & ->). apply Exists_app. right.
  destruct Habs as [(n & x & Hn & _ & ->)|[Hw|[Hw|Hw]]].
  - apply Exists_app. left.
    assert (Hd : Exists NumericLiteral.digit n).
    { destruct Hn as [(a & b & _ & Hb & ->)|(a & Ha & [->| ->])].
      - apply Exists_app. right. apply Exists_cons. right.
        by apply digitpart_has_digit.
      - by apply digitpart_has_digit.
      - apply Exists_app. left. by apply digitpart_has_digit. }
    eapply Exists_impl; [exact Hd|]. intros a Ha. by left.
  - unfold NumericLiteral.word in Hw. cbn in Hw.
    inversion Hw as [|? a1 ? l1 _ H1]; subst.
    inversion H1 as [|? a2 ? l2 Ha2 _]; subst.
    apply Exists_cons. right. apply Exists_cons. left. right.
    change (Unicode.chr "n") with 110%N. change (Unicode.chr "N") with 78%N.
    lia.
  - unfold NumericLiteral.word in Hw. cbn in Hw.
    inversion Hw as [|? a1 ? l1 _ H1]; subst.
    inversion H1 as [|? a2 ? l2 Ha2 _]; subst.
    apply Exists_cons. right. apply Exists_cons. left. right.
    change (Unicode.chr "n") with 110%N. change (Unicode.chr "N") with 78%N.
    lia.
  - unfold NumericLiteral.word in Hw. cbn in Hw.
    inversion Hw as [|? a1 ? l1 Ha1 _]; subst.
    apply Exists_cons. left. right.
    change (Unicode.chr "n") with 110%N. change (Unicode.chr "N") with 78%N.
    lia.
Qed.

Lemma TODECIMAL_ascii a :
  NumericLiteral.digit a -> is_Some (Unicode.Py_UNICODE_TODECIMAL a).
Proof.
  intros [H1 H2]. unfold Unicode.Py_UNICODE_TODECIMAL, Unicode.decimal_zeros.
  cbn [find].
  assert (E : ((48 <=? a)%N && (a <? 48 + 10)%N) = true).
  { apply andb_true_iff. split; [by apply N.leb_le|apply N.ltb_lt; lia]. }
  rewrite E. by eexists.
Qed.

Lemma numeric_string_has s cps :
  Unicode.decode (Unicode.bytes s) = Some cps ->
  NumericLiteral.numeric_string s ->
  Exists (fun c => is_Some (Unicode.Py_UNICODE_TODECIMAL c) \/
                   c = Unicode.chr "n" \/ c = Unicode.chr "N") cps.
Proof.
  intros Hdec (cps' & Hdec' & t & body & Hreads & Hpad & Hbody).
  rewrite Hdec in Hdec'. injection Hdec' as <-.
  destruct Hpad as (pre & post & -> & _ & _).
  assert (Ht : Exists (fun a => NumericLiteral.digit a \/
                        a = Unicode.chr "n" \/ a = Unicode.chr "N")
                 (pre ++ body ++ post)).
  { apply Exists_app. right. apply Exists_app. left.
    by apply floatvalue_has. }
  clear Hbody Hdec. revert Ht Hreads. generalize (pre ++ body ++ post).
  intros t' Ht Hreads. induction Hreads as [|c a cps0 t0 Hca Hrest IH].
  - inversion Ht.
  - apply Exists_cons in Ht as [Ha|Ht]; [|apply Exists_cons; right; by apply IH].
    apply Exists_cons. left.
    change (Unicode.chr "n") with 110%N in *.
    change (Unicode.chr "N") with 78%N in *.
    destruct Hca as [[_ ->]|[(_ & _ & ->)|(_ & d & Hd & ->)]].
    + destruct Ha as [Ha|Ha]; [left; by apply TODECIMAL_ascii|by right].
    + unfold NumericLiteral.digit in Ha. lia.
    + left. by exists d.
Qed.

(** *** [float()] reads every string that spells a number *)

Lemma digit_digit_of a :
  NumericLiteral.digit a -> exists d, Builtins.digit_of a = Some d.
Proof.
  intros [H1 H2]. unfold Builtins.digit_of.
  assert (E : ((48 <=? a)%N && (a <=? 57)%N) = true).
  { apply andb_true_iff. split; by apply N.leb_le. }
  rewrite E. by eexists.
Qed.

Lemma digits_tail_complete r :
  NumericLiteral.digits_rest r ->
  forall rest acc n,
    (forall c l, rest = c :: l ->
                 Builtins.digit_of c = None /\ c <> Unicode.chr "_") ->
    exists v k, Builtins.digits_tail acc n (r ++ rest) = (v, k, rest).
Proof.
  induction 1 as [|a l Ha Hl IH|a l Ha Hl IH]; intros rest acc n Hstop;
    cbn [app].
  - destruct rest as [|c l]; [by eexists _, _|].
    destruct (Hstop c l eq_refl) as [Hd Hu]. cbn [Builtins.digits_tail].
    rewrite Hd. apply N.eqb_neq in Hu. rewrite Hu. by eexists _, _.
  - destruct (digit_digit_of a Ha) as [d Hd]. cbn [Builtins.digits_tail].
    rewrite Hd. by apply IH.
  - destruct (digit_digit_of a Ha) as [d Hd]. cbn [Builtins.digits_tail].
    change (Builtins.digit_of (Unicode.chr "_")) with (@None Z).
    rewrite N.eqb_refl, Hd. by apply IH.
Qed.

Lemma digitpart_complete d rest :
  NumericLiteral.digitpart d ->
  (forall c l, rest = c :: l ->
               Builtins.digit_of c = None /\ c <> Unicode.chr "_") ->
  exists v k, Builtins.digitpart (d ++ rest) = Some (v, k, rest).
Proof.
  intros (a & r & Ha & Hr & ->) Hstop. cbn [app Builtins.digitpart].
  destruct (digit_digit_of a Ha) as [x Hx]. rewrite Hx.
  destruct (digits_tail_complete r Hr rest x 1%nat Hstop) as (v & k & ->).
  by eexists _, _.
Qed.

Lemma digitpart_head d :
  NumericLiteral.digitpart d ->
  exists c l, d = c :: l /\ NumericLiteral.digit c.
Proof. intros (a & r & Ha & _ & ->). by exists a, r. Qed.

Lemma sign_complete sg r :
  NumericLiteral.sign sg ->
  (exists c l, r = c :: l /\ c <> Unicode.chr "+" /\ c <> Unicode.chr "-") ->
  exists neg, Builtins.sign (sg ++ r) = (neg, r).
Proof.
  intros [->|[->| ->]] (c & l & -> & Hp & Hm); cbn [app Builtins.sign].
  - apply N.eqb_neq in Hp, Hm. rewrite Hm, Hp. by eexists.
  - by exists false.
  - by exists true.
Qed.

Lemma digit_not_sign c :
  NumericLiteral.digit c -> c <> Unicode.chr "+" /\ c <> Unicode.chr "-".
Proof.
  intros [H1 H2]. change (Unicode.chr "+") with 43%N.
  change (Unicode.chr "-") with 45%N. lia.
Qed.

Lemma exponent_end_complete x :
  x = [] \/ NumericLiteral.exponent x ->
  exists r, Builtins.exponent_end x = Some r.
Proof.
  intros [->|(e & sg & d & He & Hsg & Hd & ->)]; [by eexists|].
  unfold Builtins.exponent_end.
  assert (Ee : (Builtins.lower e =? Unicode.chr "e")%N = true)
    by (by destruct He as [->| ->]).
  rewrite Ee.
  destruct (sign_complete sg d Hsg) as [neg Hs].
  { destruct (digitpart_head d Hd) as (c & l & -> & Hc).
    exists c, l. split; [done|by apply digit_not_sign]. }
  rewrite Hs.
  destruct (digitpart_complete d [] Hd) as (v & k & Hdp); [done|].
  rewrite app_nil_r in Hdp. rewrite Hdp. by eexists.
Qed.

Lemma finish_complete neg m nf x :
  x = [] \/ NumericLiteral.exponent x ->
  exists n, Builtins.finish neg m nf x = Some n.
Proof.
  intros Hx. unfold Builtins.finish.
  destruct (exponent_end_complete x Hx) as [[e|] ->]; by eexists.
Qed.

Lemma exponent_head x c l :
  x = [] \/ NumericLiteral.exponent x ->
  x = c :: l ->
  Builtins.digit_of c = None /\ c <> Unicode.chr "_" /\
  (c =? Unicode.chr ".")%N = false.
Proof.
  intros [->|(e & sg & d & He & _ & _ & ->)]; [done|].
  intros [= <- _]. by destruct He as [->| ->].
Qed.

Lemma floatnumber_complete neg r :
  NumericLiteral.floatnumber r ->
  exists n, Builtins.floatnumber neg r = Some n.
Proof.
  intros (n & x & Hn & Hx & ->). unfold Builtins.floatnumber.
  assert (Hstop : forall c l, x = c :: l ->
            Builtins.digit_of c = None /\ c <> Unicode.chr "_").
  { intros c l Hc. destruct (exponent_head x c l Hx Hc) as (? & ? & _).
    done. }
  assert (Hdot : forall l, l = Unicode.chr "." :: x ->
            forall c l', l = c :: l' ->
            Builtins.digit_of c = None /\ c <> Unicode.chr "_").
  { intros l -> c l' [= <- _]. done. }
  destruct Hn as [(a & b & Ha & Hb & ->)|(a & Ha & [->| ->])].
  - destruct (digitpart_complete b x Hb Hstop) as (fr & nf & Hfr).
    destruct Ha as [->|Ha].
    + cbn [app]. change (Builtins.digitpart (Unicode.chr "." :: b ++ x))
        with (@None (Z * nat * list N)).
      rewrite N.eqb_refl, Hfr. by apply finish_complete.
    + rewrite <- app_assoc. cbn [app].
      destruct (digitpart_complete a (Unicode.chr "." :: b ++ x) Ha)
        as (ip & k & ->).
      { intros c l [= <- _]. done. }
      rewrite N.eqb_refl, Hfr. by apply finish_complete.
  - destruct (digitpart_complete a x Ha Hstop) as (ip & k & ->).
    destruct x as [|c l]; [by apply finish_complete|].
    destruct (exponent_head _ c l Hx eq_refl) as (_ & _ & ->).
    by apply finish_complete.
  - rewrite <- app_assoc. cbn [app].
    destruct (digitpart_complete a (Unicode.chr "." :: x) Ha)
      as (ip & k & ->).
    { intros c l [= <- _]. done. }
    rewrite N.eqb_refl.
    destruct x as [|c l]; [by apply finish_complete|].
    destruct (exponent_head _ c l Hx eq_refl) as (Hc & _ & _).
    cbn [Builtins.digitpart]. rewrite Hc. by apply finish_complete.
Qed.

Lemma word_complete w l :
  forallb (fun x => (97 <=? x)%N && (x <=? 122)%N) (Unicode.bytes w) = true ->
  NumericLiteral.word w l ->
  map Builtins.lower l = Unicode.bytes w.
Proof.
  unfold NumericLiteral.word. generalize (Unicode.bytes w). intros w' Hw H.
  induction H as [|x a w' l Hx _ IH]; [done|].
  cbn [forallb] in Hw. apply andb_true_iff in Hw as [Hxl Hw].
  apply andb_true_iff in Hxl as [H1 H2]. apply N.leb_le in H1, H2.
  cbn [map]. rewrite (IH Hw). f_equal. unfold Builtins.lower.
  destruct Hx as [->|Hx].
  - assert (E : ((65 <=? x)%N && (x <=? 90)%N) = false).
    { apply andb_false_iff. right. apply N.leb_gt. lia. }
    by rewrite E.
  - assert (E : ((65 <=? a)%N && (a <=? 90)%N) = true).
    { apply andb_true_iff. split; apply N.leb_le; lia. }
    by rewrite E.
Qed.

(** The characters of a number are printable ASCII characters. *)

Lemma digits_rest_printable r :
  NumericLiteral.digits_rest r -> Forall (fun a => 33 <= a <= 126)%N r.
Proof.
  induction 1 as [|a l [? ?] _ IH|a l [? ?] _ IH]; repeat constructor;
    try lia; try done.
Qed.

Lemma digitpart_printable d :
  NumericLiteral.digitpart d -> Forall (fun a => 33 <= a <= 126)%N d.
Proof.
  intros (a & r & [? ?] & Hr & ->). constructor; [lia|].
  by apply digits_rest_printable.
Qed.

Lemma sign_printable sg :
  NumericLiteral.sign sg -> Forall (fun a => 33 <= a <= 126)%N sg.
Proof. intros [->|[->| ->]]; repeat constructor; done. Qed.

Lemma word_printable w l :
  forallb (fun x => (97 <=? x)%N && (x <=? 122)%N) (Unicode.bytes w) = true ->
  NumericLiteral.word w l ->
  Forall (fun a => 33 <= a <= 126)%N l.
Proof.
  unfold NumericLiteral.word. generalize (Unicode.bytes w). intros w' Hw H.
  induction H as [|x a w' l Hx _ IH]; [constructor|].
  cbn [forallb] in Hw. apply andb_true_iff in Hw as [Hxl Hw].
  apply andb_true_iff in Hxl as [H1 H2]. apply N.leb_le in H1, H2.
  constructor; [lia|by apply IH].
Qed.

Lemma absfloatvalue_printable r :
  NumericLiteral.absfloatvalue r -> Forall (fun a => 33 <= a <= 126)%N r.
Proof.
  intros [(n & x & Hn & Hx & ->)|[Hw|[Hw|Hw]]];
    [|by apply (word_printable "inf")|by apply (word_printable "infinity")
     |by apply (word_printable "nan")].
  apply Forall_app. split.
  - destruct Hn as [(a & b & Ha & Hb & ->)|(a & Ha & [->| ->])].
    + apply Forall_app. split.
      * destruct Ha as [->|Ha]; [constructor|by apply digitpart_printable].
      * constructor; [done|by apply digitpart_printable].
    + by apply digitpart_printable.
    + apply Forall_app. split; [by apply digitpart_printable|].
      by repeat constructor.
  - destruct Hx as [->|(e & sg & d & He & Hsg & Hd & ->)]; [constructor|].
    constructor; [by destruct He as [->| ->]|].
    apply Forall_app. split; [by apply sign_printable
                             |by apply digitpart_printable].
Qed.

Lemma absfloatvalue_head r :
  NumericLiteral.absfloatvalue r ->
  exists c l, r = c :: l /\ c <> Unicode.chr "+" /\ c <> Unicode.chr "-".
Proof.
  assert (Hdp : forall d l, NumericLiteral.digitpart d ->
            exists c l', d ++ l = c :: l' /\
                         c <> Unicode.chr "+" /\ c <> Unicode.chr "-").
  { intros d l (c & l' & -> & Hc)%digitpart_head.
    exists c, (l' ++ l). split; [done|by apply digit_not_sign]. }
  assert (Hw : forall w l,
            forallb (fun x => (97 <=? x)%N && (x <=? 122)%N)
              (Unicode.bytes w) = true ->
            Unicode.bytes w <> [] ->
            NumericLiteral.word w l ->
            exists c l', l = c :: l' /\
                         c <> Unicode.chr "+" /\ c <> Unicode.chr "-").
  { intros w l Hlow Hne Hword.
    pose proof (word_printable w l Hlow Hword) as Hp.
    unfold NumericLiteral.word in Hword.
    destruct Hword as [|x a w' l' Hx Hrest]; [done|].
    exists a, l'. split; [done|].
    cbn [forallb] in Hlow. apply andb_true_iff in Hlow as [Hxl _].
    apply andb_true_iff in Hxl as [H1 H2]. apply N.leb_le in H1, H2.
    change (Unicode.chr "+") with 43%N. change (Unicode.chr "-") with 45%N.
    lia. }
  intros [(n & x & Hn & Hx & ->)|[H|[H|H]]];
    [|by apply (Hw "inf"%string)|by apply (Hw "infinity"%string)
     |by apply (Hw "nan"%string)].
  destruct Hn as [(a & b & Ha & Hb & ->)|(a & Ha & [->| ->])].
  - destruct Ha as [->|Ha].
    + cbn [app]. by eexists _, _.
    + rewrite <- app_assoc. by apply Hdp.
  - by apply Hdp.
  - rewrite <- app_assoc. by apply Hdp.
Qed.

Lemma floatvalue_printable body :
  NumericLiteral.floatvalue body ->
  body <> [] /\ Forall (fun a => 33 <= a <= 126)%N body.
Proof.
  intros (sg & r & Hsg & Hr & ->). split.
  - destruct (absfloatvalue_head r Hr) as (c & l & -> & _).
    by destruct sg.
  - apply Forall_app. split; [by apply sign_printable
                             |by apply absfloatvalue_printable].
Qed.

Lemma blank_is_space c :
  NumericLiteral.blank c -> Builtins.is_space c = true.
Proof.
  unfold Builtins.is_space, NumericLiteral.blank.
  rewrite orb_true_iff, andb_true_iff, !N.leb_le, N.eqb_eq. tauto.
Qed.

Lemma drop_spaces_blank pre l :
  Forall NumericLiteral.blank pre ->
  Builtins.drop_spaces (pre ++ l) = Builtins.drop_spaces l.
Proof.
  induction 1 as [|c pre Hc _ IH]; [done|].
  cbn [app Builtins.drop_spaces]. by rewrite (blank_is_space c Hc).
Qed.

Lemma drop_spaces_printable c l :
  (33 <= c)%N -> Builtins.drop_spaces (c :: l) = c :: l.
Proof.
  intros Hc. cbn [Builtins.drop_spaces].
  assert (E : Builtins.is_space c = false).
  { unfold Builtins.is_space. apply orb_false_iff. split.
    - apply andb_false_iff. right. apply N.leb_gt. lia.
    - apply N.eqb_neq. lia. }
  by rewrite E.
Qed.

Lemma strip_complete body t :
  NumericLiteral.padded body t ->
  body <> [] ->
  Forall (fun a => 33 <= a <= 126)%N body ->
  Builtins.strip t = body.
Proof.
  intros (pre & post & -> & Hpre & Hpost) Hne Hbody. unfold Builtins.strip.
  rewrite drop_spaces_blank by done.
  destruct body as [|c l] eqn:Eb; [done|]. rewrite <- Eb in *.
  assert (Hd : Builtins.drop_spaces (body ++ post) = body ++ post).
  { rewrite Eb. cbn [app]. apply drop_spaces_printable.
    rewrite Eb in Hbody. apply Forall_cons in Hbody as [? _]. lia. }
  rewrite Hd, rev_app_distr.
  rewrite drop_spaces_blank by (by apply List.Forall_rev).
  destruct (rev body) as [|c' l'] eqn:Er.
  { apply (f_equal (@rev N)) in Er. rewrite rev_involutive in Er.
    by rewrite Er in Hne. }
  rewrite drop_spaces_printable.
  - by rewrite <- Er, rev_involutive.
  - assert (Hin : In c' (rev body)) by (rewrite Er; by left).
    apply List.in_rev in Hin.
    apply (proj1 (List.Forall_forall _ _) Hbody) in Hin. lia.
Qed.

Lemma padded_not_DEL body t :
  NumericLiteral.padded body t ->
  Forall (fun a => 33 <= a <= 126)%N body ->
  Forall (fun a => a <> 127%N) t.
Proof.
  intros (pre & post & -> & Hpre & Hpost) Hbody.
  assert (Hb : forall l, Forall NumericLiteral.blank l ->
                         Forall (fun a => a <> 127%N) l).
  { intros l Hl. eapply Forall_impl; [exact Hl|].
    intros a [?| ->]; cbn beta; [lia|done]. }
  apply Forall_app. split; [by apply Hb|]. apply Forall_app.
  split; [|by apply Hb]. eapply Forall_impl; [exact Hbody|].
  intros a ?. cbn beta in *. lia.
Qed.

(** No blank is a decimal digit. *)
Lemma space_not_decimal ch :
  Unicode.Py_UNICODE_ISSPACE ch = true ->
  Unicode.Py_UNICODE_TODECIMAL ch = None.
Proof.
  intros Hs.
  assert (Hle : (ch < 12289)%N).
  { unfold Unicode.Py_UNICODE_ISSPACE in Hs.
    repeat (apply orb_prop in Hs as [Hs|Hs]);
      rewrite ?andb_true_iff, ?N.leb_le, ?N.eqb_eq in Hs; lia. }
  assert (Hall :
    forallb (fun n => negb (Unicode.Py_UNICODE_ISSPACE n) ||
                      bool_decide (Unicode.Py_UNICODE_TODECIMAL n = None))
      (map N.of_nat (seq 0 (N.to_nat 12289))) = true) by (vm_compute; reflexivity).
  rewrite List.forallb_forall in Hall.
  specialize (Hall ch). rewrite Hs in Hall. cbn [negb orb] in Hall.
  apply bool_decide_eq_true in Hall; [done|].
  apply List.in_map_iff. exists (N.to_nat ch). split; [lia|].
  apply List.in_seq. lia.
Qed.

Lemma transform_complete cps t :
  Forall2 NumericLiteral.reads_as cps t ->
  Forall (fun a => a <> 127%N) t ->
  Unicode.transform cps = Some t.
Proof.
  induction 1 as [|ch a cps t Hca _ IH]; [done|].
  intros [Ha Ht]%Forall_cons. cbn [Unicode.transform]. rewrite (IH Ht).
  destruct Hca as [[Hlt ->]|[(Hge & Hs & ->)|(Hge & d & Hd & ->)]].
  - assert (E : (ch <? 127)%N = true) by (apply N.ltb_lt; lia).
    by rewrite E.
  - assert (E : (ch <? 127)%N = false) by (apply N.ltb_ge; lia).
    by rewrite E, Hs.
  - assert (E : (ch <? 127)%N = false) by (apply N.ltb_ge; lia).
    rewrite E, Hd.
    destruct (Unicode.Py_UNICODE_ISSPACE ch) eqn:Es; [|done].
    apply space_not_decimal in Es. congruence.
Qed.

Lemma ascii_reads cps t :
  forallb (fun ch => (ch <? 128)%N) cps = true ->
  Forall2 NumericLiteral.reads_as cps t ->
  t = cps.
Proof.
  intros Hall H. induction H as [|ch a cps t Hca _ IH]; [done|].
  cbn [forallb] in Hall. apply andb_true_iff in Hall as [Hch Hall].
  apply N.ltb_lt in Hch. rewrite (IH Hall). f_equal.
  destruct Hca as [[_ ->]|[(Hge & _)|(Hge & _)]]; [done|lia|lia].
Qed.

Lemma text_complete s cps t :
  Unicode.decode (Unicode.bytes s) = Some cps ->
  Forall2 NumericLiteral.reads_as cps t ->
  Forall (fun a => a <> 127%N) t ->
  Builtins.text s = Some t.
Proof.
  intros Hdec Hreads Ht. unfold Builtins.text. rewrite Hdec.
  unfold Unicode._PyUnicode_TransformDecimalAndSpaceToASCII.
  destruct (forallb (fun ch => (ch <? 128)%N) cps) eqn:E.
  - by rewrite (ascii_reads cps t E Hreads).
  - by apply transform_complete.
Qed.

Lemma parse_number_complete s :
  NumericLiteral.numeric_string s ->
  exists n, Builtins.parse_number s = Some n.
Proof.
  intros (cps & Hdec & t & body & Hreads & Hpad & Hbody).
  destruct (floatvalue_printable body Hbody) as [Hne Hprint].
  unfold Builtins.parse_number.
  rewrite (text_complete s cps t Hdec Hreads
             (padded_not_DEL body t Hpad Hprint)).
  rewrite (strip_complete body t Hpad Hne Hprint).
  destruct Hbody as (sg & r & Hsg & Hr & ->).
  destruct (sign_complete sg r Hsg (absfloatvalue_head r Hr)) as [neg ->].
  destruct (bool_decide (map Builtins.lower r = Unicode.bytes "inf")) eqn:E1;
    [by eexists|].
  destruct (bool_decide (map Builtins.lower r = Unicode.bytes "infinity"))
    eqn:E2; [by eexists|].
  cbn [orb].
  destruct (bool_decide (map Builtins.lower r = Unicode.bytes "nan")) eqn:E3;
    [by eexists|].
  apply bool_decide_eq_false in E1, E2, E3.
  destruct Hr as [Hr|[Hw|[Hw|Hw]]].
  - by apply floatnumber_complete.
  - by apply (word_complete "inf") in Hw.
  - by apply (word_complete "infinity") in Hw.
  - by apply (word_complete "nan") in Hw.
Qed.

(** [float()] raises [ValueError] on the strings that spell no number, and
    on no other string. *)
Lemma float_ValueError_iff s :
  Builtins.float (VStr s) = Raise ValueError <->
  ~ NumericLiteral.numeric_string s.
Proof.
  cbn [Builtins.float]. split.
  - intros H Hnum. destruct (parse_number_complete s Hnum) as [n Hn].
    by rewrite Hn in H.
  - intros Hnum. destruct (Builtins.parse_number s) as [n|] eqn:E; [|done].
    destruct Hnum. by apply (parse_number_sound s n).
Qed.

(** [float()] raises [TypeError] or [ValueError] on the inputs that are not
    numbers, and on no other input. *)
Lemma float_non_numeric_iff v :
  Builtins.non_numeric v <->
  Builtins.float v = Raise TypeError \/ Builtins.float v = Raise ValueError.
Proof.
  destruct v as [|b|z|f|s|l|d]; cbn [Builtins.non_numeric];
    try (split; [by left|done]).
  - split; [done|by intros [?|?]].
  - split; [done|]. cbn [Builtins.float].
    by destruct (Builtins.float_of_Z z); intros [?|?].
  - split; [done|by intros [?|?]].
  - rewrite <- float_ValueError_iff. split; [by right|].
    intros [H|H]; [|done]. cbn [Builtins.float] in H.
    by destruct (Builtins.parse_number s).
Qed.

(** *** The concrete channel classes *)

Lemma float_returns_float v r :
  Builtins.float v = Ok r -> exists f, r = VFloat f.
Proof.
  destruct v as [|b|z|f|s|l|d]; unfold Builtins.float; try discriminate.
  - intros [= <-]. eauto.
  - destruct (Builtins.float_of_Z z); intros [= <-]; eauto.
  - intros [= <-]. eauto.
  - destruct (Builtins.parse_number s); intros [= <-]; eauto.
Qed.

Lemma int_returns_int v r :
  Builtins.int v = Ok r -> exists z, r = VInt z.
Proof.
  destruct v as [|b|z|f|s|l|d]; unfold Builtins.int; try discriminate.
  - intros [= <-]. eauto.
  - intros [= <-]. eauto.
  - destruct f; intros [= <-]; eauto.
  - destruct (Builtins.parse_int s) as [[[neg m] n]|]; [|discriminate].
    destruct (Builtins.max_str_digits <? n)%nat; intros [= <-]; eauto.
Qed.

Lemma float_non_numeric v :
  Builtins.non_numeric v ->
  Builtins.float v = Raise TypeError \/ Builtins.float v = Raise ValueError.
Proof.
  destruct v as [|b|z|f|s|l|d]; cbn [Builtins.non_numeric Builtins.float];
    try done; auto.
  intros Hs. destruct (Builtins.parse_number s) as [n|] eqn:E; [|auto].
  destruct Hs. by apply (parse_number_sound s n).
Qed.

Lemma int_non_numeric v :
  Builtins.non_numeric v ->
  Builtins.int v = Raise TypeError \/ Builtins.int v = Raise ValueError.
Proof.
  destruct v as [|b|z|f|s|l|d]; cbn [Builtins.non_numeric Builtins.int];
    try done; auto.
  intros Hs. destruct (Builtins.parse_int s) as [x|] eqn:E; [|auto].
  destruct Hs. by apply (parse_int_sound s x).
Qed.

Lemma no_digit_non_numeric s cps :
  Unicode.decode (Unicode.bytes s) = Some cps ->
  Forall (fun c => Unicode.Py_UNICODE_TODECIMAL c = None /\
                   c <> Unicode.chr "n" /\ c <> Unicode.chr "N") cps ->
  Builtins.non_numeric (VStr s).
Proof.
  intros Hdec Hall Hnum. cbn in Hnum.
  pose proof (numeric_string_has s cps Hdec Hnum) as Hex.
  apply Exists_exists in Hex as (c & Hc & Hex).
  rewrite Forall_forall in Hall. destruct (Hall c Hc) as (H1 & H2 & H3).
  destruct Hex as [[d Hd]|[?|?]]; [congruence|done|done].
Qed.

Lemma ResultChannel_describe_with_class b k ty1 ty2 :
  _get_type_string (ResultChannel.class b) = Ok ty1 ->
  _get_type_string k = Ok ty2 ->
  exists d1 : gmap string PyVal,
    ResultChannel.describe b = Ok d1 /\
    ResultChannel.describe (ResultChannel.with_class k b) =
    Ok (<["type"%string := VStr ty2]> d1).
Proof.
  intros H1 H2. eexists. split; [by apply ResultChannel_describe_eq|].
  rewrite (ResultChannel_describe_eq _ ty2) by done.
  cbn [ResultChannel.with_class ResultChannel.description
       ResultChannel.path ResultChannel.display_hints].
  f_equal. cbn zeta. case_bool_decide.
  - by rewrite insert_insert_eq.
  - rewrite (insert_insert_ne _ "type"%string "display_hints"%string)
      by discriminate.
    by rewrite insert_insert_eq.
Qed.

Lemma NumericChannel_describe_with_class n k ty1 ty2 :
  _get_type_string (ResultChannel.class (NumericChannel.base n)) = Ok ty1 ->
  _get_type_string k = Ok ty2 ->
  exists d1 : gmap string PyVal,
    NumericChannel.describe n = Ok d1 /\
    NumericChannel.describe (NumericChannel.with_class k n) =
    Ok (<["type"%string := VStr ty2]> d1).
Proof.
  intros H1 H2.
  destruct (ResultChannel_describe_with_class _ k ty1 ty2 H1 H2)
    as (d & Hd & Hd').
  eexists. split; [by apply NumericChannel_describe_eq|].
  rewrite (NumericChannel_describe_eq (NumericChannel.with_class k n) _ Hd').
  destruct n as [b mn mx sc un vp lv]. cbn. f_equal.
  destruct un, (is_None mn), (is_None mx); cbn [negb];
    by rewrite ?(insert_insert_ne _ "type"%string) by discriminate.
Qed.

Lemma ResultChannel_push_with_class dump_json (ds : datasets) b k v :
  _coerce_to_type dump_json (ResultChannel.class b) v =
  _coerce_to_type dump_json k v ->
  ResultChannel.push dump_json v (ds, ResultChannel.with_class k b) =
  (let '((ds', b'), r) := ResultChannel.push dump_json v (ds, b) in
   ((ds', ResultChannel.with_class k b'), r)).
Proof.
  intros H. unfold ResultChannel.push, bind, gets, lift.
  cbn [snd ResultChannel.with_class ResultChannel.class ResultChannel.sink].
  rewrite H. destruct (_coerce_to_type dump_json k v); [|reflexivity].
  destruct (ResultChannel.sink b) as [sk|]; [|reflexivity].
  destruct (ResultSink.push a (ds, sk)) as [[ds' sk'] r]. reflexivity.
Qed.

Lemma Channel_push_with_class dump_json (ds : datasets) c k v :
  _coerce_to_type dump_json (Channel.class c) v =
  _coerce_to_type dump_json k v ->
  Channel.push dump_json v (ds, Channel.with_class k c) =
  (let '((ds', c'), r) := Channel.push dump_json v (ds, c) in
   ((ds', Channel.with_class k c'), r)).
Proof.
  intros H. destruct c as [b|n]; unfold Channel.class in H; cbn in H.
  - unfold Channel.push. cbn [Channel.with_class].
    rewrite ResultChannel_push_with_class by done.
    by destruct (ResultChannel.push dump_json v (ds, b)) as [[ds' b'] r].
  - unfold Channel.push. cbn [Channel.with_class].
    rewrite !NumericChannel_push_eq. unfold NumericChannel._push.
    destruct n as [b mn mx sc un vp lv]. cbn in H.
    cbn [NumericChannel.base NumericChannel.with_class
         NumericChannel.with_base NumericChannel.set__last_value
         NumericChannel.set__value_pushed NumericChannel.min
         NumericChannel.max NumericChannel.scale NumericChannel.unit
         NumericChannel._value_pushed NumericChannel._last_value].
    rewrite ResultChannel_push_with_class by done.
    by destruct (ResultChannel.push dump_json v (ds, b)) as [[ds' b'] r].
Qed.

(** C9. The type strings of [FloatChannel], [IntChannel], [OpaqueChannel]
    and [SubscanChannel] are ["float"], ["int"], ["opaque"] and ["subscan"].
    [FloatChannel._coerce_to_type] is [float()], which takes ["3"] and [3]
    to [3.0] and returns floats only; [IntChannel._coerce_to_type] is
    [int()], which takes [3.7] to [3] and returns integers only. On an
    input that is not a number, that is neither a bool, an int or a float
    nor a string that spells a number, both raise [TypeError] or
    [ValueError]; a string without a decimal digit and without the letter
    n is such an input. [OpaqueChannel._coerce_to_type] returns every value
    unchanged. [SubscanChannel._coerce_to_type] is the JSON serialisation
    [dump_json] of the value, whatever the value is, and so returns strings
    only where [dump_json] does. The variants differ only in type string
    and coercion, the two methods that each class body defines: changing
    the class of a channel to another variant with the same base class
    ([NumericChannel] for [FloatChannel] and [IntChannel], [ResultChannel]
    for [OpaqueChannel] and [SubscanChannel]) leaves its attributes as
    they are, changes the [type] entry of the mapping that [describe()]
    returns and nothing else of it, and [push] of a value that both
    classes coerce alike does the same on both. *)
Theorem C9_channel_variants (dump_json : PyVal -> result PyVal) :
  (_get_type_string cFloatChannel = Ok "float"%string /\
   _get_type_string cIntChannel = Ok "int"%string /\
   _get_type_string cOpaqueChannel = Ok "opaque"%string /\
   _get_type_string cSubscanChannel = Ok "subscan"%string) /\
  ((forall v, _coerce_to_type dump_json cFloatChannel v = Builtins.float v) /\
   _coerce_to_type dump_json cFloatChannel (VStr "3") =
     Ok (VFloat (S754_finite false 6755399441055744 (-51))) /\
   _coerce_to_type dump_json cFloatChannel (VInt 3) =
     Ok (VFloat (S754_finite false 6755399441055744 (-51))) /\
   forall v r, _coerce_to_type dump_json cFloatChannel v = Ok r ->
               exists f, r = VFloat f) /\
  ((forall v, _coerce_to_type dump_json cIntChannel v = Builtins.int v) /\
   Builtins.float (VStr "3.7") =
     Ok (VFloat (S754_finite false 8331659310635418 (-51))) /\
   _coerce_to_type dump_json cIntChannel
     (VFloat (S754_finite false 8331659310635418 (-51))) = Ok (VInt 3) /\
   forall v r, _coerce_to_type dump_json cIntChannel v = Ok r ->
               exists z, r = VInt z) /\
  (forall k v,
     k = cFloatChannel \/ k = cIntChannel ->
     Builtins.non_numeric v ->
     _coerce_to_type dump_json k v = Raise TypeError \/
     _coerce_to_type dump_json k v = Raise ValueError) /\
  (forall s cps,
     Unicode.decode (Unicode.bytes s) = Some cps ->
     Forall (fun c => Unicode.Py_UNICODE_TODECIMAL c = None /\
                      c <> Unicode.chr "n" /\ c <> Unicode.chr "N") cps ->
     Builtins.non_numeric (VStr s)) /\
  (forall v, _coerce_to_type dump_json cOpaqueChannel v = Ok v) /\
  ((forall v, _coerce_to_type dump_json cSubscanChannel v = dump_json v) /\
   ((forall v r, dump_json v = Ok r -> exists s, r = VStr s) ->
    forall v r, _coerce_to_type dump_json cSubscanChannel v = Ok r ->
                exists s, r = VStr s)) /\
  (forall c k ty1 ty2,
     Channel.well_formed c = true ->
     is_numeric k = is_numeric (Channel.class c) ->
     _get_type_string (Channel.class c) = Ok ty1 ->
     _get_type_string k = Ok ty2 ->
     Channel.well_formed (Channel.with_class k c) = true /\
     exists d1 : gmap string PyVal,
       Channel.describe c = Ok d1 /\
       Channel.describe (Channel.with_class k c) =
       Ok (<["type"%string := VStr ty2]> d1)) /\
  (forall c k (ds : datasets) v,
     Channel.well_formed c = true ->
     is_numeric k = is_numeric (Channel.class c) ->
     _coerce_to_type dump_json (Channel.class c) v =
     _coerce_to_type dump_json k v ->
     Channel.push dump_json v (ds, Channel.with_class k c) =
     (let '((ds', c'), r) := Channel.push dump_json v (ds, c) in
      ((ds', Channel.with_class k c'), r))).
Proof.
  split; [by repeat split|].
  split.
  { split; [reflexivity|]. split; [vm_compute; reflexivity|].
    split; [reflexivity|]. intros v r. apply float_returns_float. }
  split.
  { split; [reflexivity|]. split; [vm_compute; reflexivity|].
    split; [reflexivity|]. intros v r. apply int_returns_int. }
  split.
  { intros k v [-> | ->] Hv; [by apply float_non_numeric
                             |by apply int_non_numeric]. }
  split; [exact no_digit_non_numeric|].
  split; [reflexivity|].
  split; [split; [reflexivity|intros H v r; apply H]|].
  split.
  - intros [b|n] k ty1 ty2 Hwf Hk H1 H2;
      cbn [Channel.describe Channel.with_class]; (split;
      [unfold Channel.class in Hk; cbn in Hwf, Hk |- *; rewrite Hk;
       by destruct (is_numeric _)|]).
    + by apply ResultChannel_describe_with_class with (ty1 := ty1).
    + by apply NumericChannel_describe_with_class with (ty1 := ty1).
  - intros c k ds v _ _ H. by apply Channel_push_with_class.
Qed.

Lemma C9_channel_variants_witness :
  (_coerce_to_type Sample.dump_json cFloatChannel (VStr "abc") =
     Raise TypeError \/
   _coerce_to_type Sample.dump_json cFloatChannel (VStr "abc") =
     Raise ValueError) /\
  (forall v r, _coerce_to_type Sample.dump_json cSubscanChannel v = Ok r ->
               exists s, r = VStr s) /\
  (exists d1 : gmap string PyVal,
    Channel.describe
      (Channel.Plain
         (ResultChannel.__init__ cOpaqueChannel "readout/p" "" None true)) =
    Ok d1 /\
    Channel.describe
      (Channel.with_class cSubscanChannel
         (Channel.Plain
            (ResultChannel.__init__ cOpaqueChannel "readout/p" "" None
               true))) =
    Ok (<["type"%string := VStr "subscan"]> d1)).
Proof.
  destruct (C9_channel_variants Sample.dump_json)
    as (_ & _ & _ & Hnum & Hnn & _ & [_ Hjson] & Hdesc & _).
  split; [|split].
  - apply (Hnum cFloatChannel (VStr "abc") (or_introl eq_refl)).
    apply (Hnn "abc"%string [97; 98; 99]%N eq_refl).
    repeat constructor; discriminate.
  - apply Hjson. intros [] r; try discriminate. intros [= <-]. by eexists.
  - exact (proj2 (Hdesc (Channel.Plain
                           (ResultChannel.__init__ cOpaqueChannel
                              "readout/p" "" None true))
                    cSubscanChannel "opaque"%string "subscan"%string
                    eq_refl eq_refl eq_refl eq_refl)).
Defined.

(** ** The specification's examples, evaluated *)

(** [FloatChannel("readout/p", unit="ms", min=0, max=10).describe()] *)
Example describe_FloatChannel_ms :
  exists n (d : gmap string PyVal),
    NumericChannel.__init__ Sample.units Sample.dump_json cFloatChannel
      "readout/p" "" None (VInt 0) (VInt 10) (Some "ms"%string) VNone =
    Ok n /\
    NumericChannel.describe n = Ok d /\
    d !! "path"%string = Some (VStr "readout/p") /\
    d !! "type"%string = Some (VStr "float") /\
    d !! "scale"%string = Sample.units "ms" /\
    d !! "min"%string = Some (VInt 0) /\
    d !! "max"%string = Some (VInt 10) /\
    d !! "unit"%string = Some (VStr "ms") /\
    d !! "display_hints"%string = None.
Proof.
  eexists _, _. split; [reflexivity|]. split; [reflexivity|].
  vm_compute. by repeat split.
Qed.

(** An [IntChannel] with a [SingleUseSink] attached, pushed to twice: the
    second push raises in the sink, which keeps the first value, while the
    channel caches the second. *)
Example push_twice_SingleUseSink :
  exists n,
    NumericChannel.__init__ Sample.units Sample.dump_json cIntChannel
      "readout/n" "" None VNone VNone (Some ""%string) VNone = Ok n /\
    let n0 :=
      NumericChannel.with_base
        (fst (ResultChannel.set_sink
                (ResultSink.SingleUse SingleUseSink.__init__)
                (NumericChannel.base n))) n in
    let '(st1, r1) := NumericChannel.push Sample.dump_json (VInt 1) (∅, n0) in
    let '(st2, r2) := NumericChannel.push Sample.dump_json (VInt 2) st1 in
    r1 = Ok tt /\
    r2 = Raise RuntimeError /\
    NumericChannel.get_last (snd st2) = Ok (VInt 2) /\
    ResultChannel.sink (NumericChannel.base (snd st2)) =
    Some (ResultSink.SingleUse (SingleUseSink.mk true (VInt 1))).
Proof. eexists. split; [reflexivity|]. vm_compute. by repeat split. Qed.

(** A [FloatChannel] with an [ArraySink] attached: the sink receives the
    coerced values, the channel caches the raw one. *)
Example push_FloatChannel_ArraySink :
  exists n,
    NumericChannel.__init__ Sample.units Sample.dump_json cFloatChannel
      "readout/f" "" None VNone VNone (Some "kHz"%string) VNone = Ok n /\
    let n0 :=
      NumericChannel.with_base
        (fst (ResultChannel.set_sink (ResultSink.Array ArraySink.__init__)
                (NumericChannel.base n))) n in
    let st := after_pushes Sample.dump_json [VStr "3"; VInt 3] (∅, n0) in
    NumericChannel.get_last (snd st) = Ok (VInt 3) /\
    ResultChannel.sink (NumericChannel.base (snd st)) =
    Some (ResultSink.Array
            (ArraySink.mk [VFloat (Builtins.float_of_Z 3);
                           VFloat (Builtins.float_of_Z 3)])).
Proof. eexists. split; [reflexivity|]. vm_compute. by repeat split. Qed.

(** A [SubscanChannel] pushes what [dump_json] returns, and raises what it
    raises. *)
Example push_SubscanChannel :
  let c :=
    fst (ResultChannel.set_sink (ResultSink.LastValue LastValueSink.__init__)
           (ResultChannel.__init__ cSubscanChannel "scan" "" None true)) in
  (let '((_, c'), r) := ResultChannel.push Sample.dump_json VNone (∅, c) in
   r = Ok tt /\
   ResultChannel.sink c' =
   Some (ResultSink.LastValue (LastValueSink.mk (VStr "null")))) /\
  ResultChannel.push Sample.dump_json (VInt 1) (∅, c) =
  ((∅, c), Raise TypeError).
Proof. vm_compute. by repeat split. Qed.

(** [float()] and [int()] on strings *)
Example float_of_strings :
  Builtins.float (VStr " +3.7e0 ") = Builtins.float (VStr "37_0e-2") /\
  Builtins.float (VStr "0.1") =
    Ok (VFloat (S754_finite false 7205759403792794 (-56))) /\
  Builtins.float (VStr "-Infinity") = Ok (VFloat (S754_infinity true)) /\
  Builtins.float (VStr "1e400") = Ok (VFloat (S754_infinity false)) /\
  Builtins.float (VStr "3._7") = Raise ValueError /\
  Builtins.float (VStr "") = Raise ValueError /\
  Builtins.float (VInt (2 ^ 1024)) = Raise OverflowError /\
  Builtins.int (VStr " -1_000 ") = Ok (VInt (-1000)) /\
  Builtins.int (VStr "3.7") = Raise ValueError /\
  Builtins.int (VFloat (S754_finite true 8331659310635418 (-51))) =
    Ok (VInt (-3)) /\
  Builtins.int (VFloat (S754_infinity false)) = Raise OverflowError.
Proof. vm_compute. by repeat split. Qed.

(** [float()] and [int()] on strings beyond ASCII digits and spaces: the
    Arabic-Indic digits of 3.7; a no-break space, which is a blank; the
    control character U+001C, which [str.isspace] takes for a blank and
    the conversions do not; a minus sign that is not the ASCII one; and
    the limit of 4300 digits of [int()]. *)
Example float_of_unicode_strings :
  Builtins.float (VStr "٣.٧") =
    Ok (VFloat (S754_finite false 8331659310635418 (-51))) /\
  Builtins.int (VStr "١٢") = Ok (VInt 12) /\
  Builtins.float
    (VStr (String (ascii_of_nat 194) (String (ascii_of_nat 160) "3"))) =
    Ok (VFloat (S754_finite false 6755399441055744 (-51))) /\
  Unicode.Py_UNICODE_ISSPACE 28 = true /\
  Builtins.float (VStr (String (ascii_of_nat 28) "3")) = Raise ValueError /\
  Builtins.int (VStr (String "3" (String (ascii_of_nat 31) ""))) =
    Raise ValueError /\
  Builtins.float (VStr "−5") = Raise ValueError /\
  Builtins.int (VStr (string_of_list_ascii (List.repeat "0"%char 4300))) =
    Ok (VInt 0) /\
  Builtins.int (VStr (string_of_list_ascii (List.repeat "0"%char 4301))) =
    Raise ValueError /\
  Builtins.float (VStr (string_of_list_ascii (List.repeat "0"%char 4301))) =
    Ok (VFloat (S754_zero false)).
Proof. vm_compute. by repeat split. Qed.

(** * Further properties *)

(** ** A channel and its sink *)

Lemma with_sink_with_sink o o' b :
  ResultChannel.with_sink o (ResultChannel.with_sink o' b) =
  ResultChannel.with_sink o b.
Proof. reflexivity. Qed.

Lemma with_sink_same b sk :
  ResultChannel.sink b = Some sk -> ResultChannel.with_sink (Some sk) b = b.
Proof. destruct b; cbn. by intros ->. Qed.

Lemma ResultChannel_push_raise dump_json (ds : datasets) b v e :
  _coerce_to_type dump_json (ResultChannel.class b) v = Raise e ->
  ResultChannel.push dump_json v (ds, b) = ((ds, b), Raise e).
Proof.
  intros H. unfold ResultChannel.push, bind, gets, lift. cbn [snd].
  by rewrite H.
Qed.

Lemma ResultChannel_push_sink dump_json (ds : datasets) b sk v value :
  ResultChannel.sink b = Some sk ->
  _coerce_to_type dump_json (ResultChannel.class b) v = Ok value ->
  ResultChannel.push dump_json v (ds, b) =
  (let '((ds', sk'), r) := ResultSink.push value (ds, sk) in
   ((ds', ResultChannel.with_sink (Some sk') b), r)).
Proof.
  intros Hs Hc. unfold ResultChannel.push, bind, gets, lift. cbn [snd].
  by rewrite Hc, Hs.
Qed.

(** X1. [ResultChannel.push] on a channel with a sink attached: when
    [_coerce_to_type] raises, the exception goes to the caller and neither
    the channel, the sink nor the dataset store changes; when it returns
    [value], the outcome, the store and the sink are those of
    [sink.push(value)], and the channel changes in nothing but the state of
    its sink. *)
Theorem X1_push_forwards (dump_json : PyVal -> result PyVal) (ds : datasets)
    (b : ResultChannel.t) (sk : ResultSink.t) (raw_value : PyVal)
    (Hsink : ResultChannel.sink b = Some sk) :
  (forall e,
     _coerce_to_type dump_json (ResultChannel.class b) raw_value = Raise e ->
     ResultChannel.push dump_json raw_value (ds, b) = ((ds, b), Raise e)) /\
  (forall value,
     _coerce_to_type dump_json (ResultChannel.class b) raw_value = Ok value ->
     forall ds' sk' r,
       ResultSink.push value (ds, sk) = ((ds', sk'), r) ->
       ResultChannel.push dump_json raw_value (ds, b) =
       ((ds', ResultChannel.with_sink (Some sk') b), r)).
Proof.
  split.
  - intros e He. by apply ResultChannel_push_raise.
  - intros value Hv ds' sk' r Hp.
    rewrite (ResultChannel_push_sink dump_json ds b sk raw_value value)
      by done.
    by rewrite Hp.
Qed.

Lemma X1_push_forwards_witness :
  ResultChannel.push Sample.dump_json (VStr "3")
    (∅, ResultChannel.with_sink (Some (ResultSink.Array ArraySink.__init__))
          (ResultChannel.__init__ cFloatChannel "readout/f" "" None true)) =
  ((∅, ResultChannel.with_sink
         (Some (ResultSink.Array
                  (ArraySink.mk [VFloat (Builtins.float_of_Z 3)])))
         (ResultChannel.__init__ cFloatChannel "readout/f" "" None true)),
   Ok tt).
Proof.
  destruct (X1_push_forwards Sample.dump_json ∅
              (ResultChannel.with_sink
                 (Some (ResultSink.Array ArraySink.__init__))
                 (ResultChannel.__init__ cFloatChannel "readout/f" "" None
                    true))
              (ResultSink.Array ArraySink.__init__) (VStr "3") eq_refl)
    as [_ H].
  exact (H (VFloat (Builtins.float_of_Z 3)) eq_refl ∅
           (ResultSink.Array (ArraySink.mk [VFloat (Builtins.float_of_Z 3)]))
           (Ok tt) eq_refl).
Defined.

Lemma Channel_push_raise dump_json (ds : datasets) c v e :
  _coerce_to_type dump_json (Channel.class c) v = Raise e ->
  Channel.push dump_json v (ds, c) = ((ds, cached v c), Raise e).
Proof.
  intros H. destruct c as [b|n]; unfold Channel.class in H; cbn in H.
  - unfold Channel.push. by rewrite ResultChannel_push_raise with (e := e).
  - unfold Channel.push. rewrite NumericChannel_push_eq.
    unfold NumericChannel._push.
    rewrite ResultChannel_push_raise with (e := e); [|by destruct n].
    by destruct n.
Qed.

Lemma Channel_push_sink dump_json (ds : datasets) c sk v value :
  Channel.sink c = Some sk ->
  _coerce_to_type dump_json (Channel.class c) v = Ok value ->
  Channel.push dump_json v (ds, c) =
  (let '((ds', sk'), r) := ResultSink.push value (ds, sk) in
   ((ds', attached sk' (cached v c)), r)).
Proof.
  intros Hs Hc.
  destruct c as [b|n]; unfold Channel.class, Channel.sink in *; cbn in Hs, Hc.
  - unfold Channel.push.
    rewrite (ResultChannel_push_sink dump_json ds b sk v value) by done.
    by destruct (ResultSink.push value (ds, sk)) as [[ds' sk'] r].
  - unfold Channel.push. rewrite NumericChannel_push_eq.
    unfold NumericChannel._push.
    rewrite (ResultChannel_push_sink dump_json ds _ sk v value);
      [|by destruct n|by destruct n].
    destruct (ResultSink.push value (ds, sk)) as [[ds' sk'] r].
    by destruct n.
Qed.

Lemma attached_sink sk c : Channel.sink (attached sk c) = Some sk.
Proof. by destruct c as [b|n]. Qed.

Lemma attached_class sk c : Channel.class (attached sk c) = Channel.class c.
Proof. by destruct c as [b|n]. Qed.

Lemma cached_sink v c : Channel.sink (cached v c) = Channel.sink c.
Proof. by destruct c as [b|n]. Qed.

Lemma cached_class v c : Channel.class (cached v c) = Channel.class c.
Proof. by destruct c as [b|n]. Qed.

Lemma Channel_push_all_sink dump_json k vs ws :
  Forall2 (fun v w => _coerce_to_type dump_json k v = Ok w) vs ws ->
  forall (ds : datasets) c sk ds' sk' r,
    Channel.class c = k ->
    Channel.sink c = Some sk ->
    run_all ResultSink.push ws (ds, sk) = ((ds', sk'), r) ->
    exists c',
      run_all (Channel.push dump_json) vs (ds, c) = ((ds', c'), r) /\
      Channel.sink c' = Some sk' /\
      Channel.class c' = k.
Proof.
  induction 1 as [|v w vs ws Hvw Hrest IH]; intros ds c sk ds' sk' r Hk Hs Hrun.
  - cbn in Hrun. injection Hrun as <- <- <-. by exists c.
  - cbn [run_all] in *. unfold bind in *.
    rewrite (Channel_push_sink dump_json ds c sk v w) by (by rewrite ?Hk).
    destruct (ResultSink.push w (ds, sk)) as [[ds1 sk1] [[]|e]].
    + apply (IH ds1 (attached sk1 (cached v c)) sk1); [|apply attached_sink|done].
      by rewrite attached_class, cached_class.
    + injection Hrun as <- <- <-. eexists. split; [reflexivity|].
      split; [apply attached_sink|].
      by rewrite attached_class, cached_class.
Qed.

(** X2. A channel of any class with a sink attached, pushed to with values
    that its class coerces: the run of pushes has the outcome of the run
    of [sink.push] on the coerced values, in the same order, stops where
    that stops, and leaves the store and the sink as that leaves them; the
    channel keeps its class and its sink. *)
Theorem X2_pushes_forward (dump_json : PyVal -> result PyVal)
    (ds : datasets) (c : Channel.t) (sk : ResultSink.t)
    (vs ws : list PyVal)
    (Hsink : Channel.sink c = Some sk)
    (Hcoerce : Forall2 (fun v w =>
                 _coerce_to_type dump_json (Channel.class c) v = Ok w) vs ws) :
  forall ds' sk' r,
    run_all ResultSink.push ws (ds, sk) = ((ds', sk'), r) ->
    exists c',
      run_all (Channel.push dump_json) vs (ds, c) = ((ds', c'), r) /\
      Channel.sink c' = Some sk' /\
      Channel.class c' = Channel.class c.
Proof.
  intros ds' sk' r Hrun.
  by apply (Channel_push_all_sink dump_json (Channel.class c) vs ws Hcoerce
              ds c sk).
Qed.

Lemma X2_pushes_forward_witness :
  exists c',
    run_all (Channel.push Sample.dump_json) [VStr "3"; VInt 4]
      (∅, Channel.Plain
            (ResultChannel.with_sink
               (Some (ResultSink.LastValue LastValueSink.__init__))
               (ResultChannel.__init__ cOpaqueChannel "aux" "" None true))) =
    ((∅, c'), Ok tt) /\
    Channel.sink c' = Some (ResultSink.LastValue (LastValueSink.mk (VInt 4))).
Proof.
  destruct (X2_pushes_forward Sample.dump_json ∅
              (Channel.Plain
                 (ResultChannel.with_sink
                    (Some (ResultSink.LastValue LastValueSink.__init__))
                    (ResultChannel.__init__ cOpaqueChannel "aux" "" None
                       true)))
              (ResultSink.LastValue LastValueSink.__init__)
              [VStr "3"; VInt 4] [VStr "3"; VInt 4] eq_refl
              ltac:(repeat constructor)
              ∅ (ResultSink.LastValue (LastValueSink.mk (VInt 4))) (Ok tt)
              eq_refl) as (c' & Hrun & Hsk & _).
  exists c'. split; [exact Hrun | exact Hsk].
Defined.

(** ** Channels with particular sinks *)

Lemma ResultSink_push_all_Array ws : forall (ds : datasets) a,
  run_all ResultSink.push ws (ds, ResultSink.Array a) =
  ((ds, ResultSink.Array (ArraySink.mk (ArraySink.data a ++ ws))), Ok tt).
Proof.
  induction ws as [|w ws IH]; intros ds [d].
  - cbn. by rewrite app_nil_r.
  - cbn [run_all]. unfold bind. cbn. rewrite IH. cbn.
    by rewrite <- app_assoc.
Qed.

Lemma ResultSink_push_all_Appending ws : forall (ds : datasets) s,
  run_all ResultSink.push ws (ds, ResultSink.AppendingDataset s) =
  (let '((ds', s'), r) := run_all AppendingDatasetSink.push ws (ds, s) in
   ((ds', ResultSink.AppendingDataset s'), r)).
Proof.
  induction ws as [|w ws IH]; intros ds s; [reflexivity|].
  cbn [run_all]. unfold bind. cbn [ResultSink.push].
  destruct (AppendingDatasetSink.push w (ds, s)) as [[ds1 s1] [[]|e]];
    [apply IH|reflexivity].
Qed.

(** X3. A channel of any class with an [ArraySink] attached: after pushes
    of values that its class coerces, every push has returned, the dataset
    store is untouched, and the sink holds what it held followed by the
    coerced values in push order. *)
Theorem X3_channel_ArraySink (dump_json : PyVal -> result PyVal)
    (ds : datasets) (c : Channel.t) (a : ArraySink.t) (vs ws : list PyVal)
    (Hsink : Channel.sink c = Some (ResultSink.Array a))
    (Hcoerce : Forall2 (fun v w =>
                 _coerce_to_type dump_json (Channel.class c) v = Ok w) vs ws) :
  exists c',
    run_all (Channel.push dump_json) vs (ds, c) = ((ds, c'), Ok tt) /\
    Channel.sink c' =
    Some (ResultSink.Array (ArraySink.mk (ArraySink.get_all a ++ ws))) /\
    Channel.class c' = Channel.class c.
Proof.
  apply (Channel_push_all_sink dump_json (Channel.class c) vs ws Hcoerce
           ds c (ResultSink.Array a)); [done|done|].
  apply ResultSink_push_all_Array.
Qed.

Lemma X3_channel_ArraySink_witness :
  exists c',
    run_all (Channel.push Sample.dump_json) [VStr "3"; VNone]
      (∅, Channel.Plain
            (ResultChannel.with_sink
               (Some (ResultSink.Array ArraySink.__init__))
               (ResultChannel.__init__ cOpaqueChannel "aux" "" None true))) =
    ((∅, c'), Ok tt) /\
    Channel.sink c' =
    Some (ResultSink.Array (ArraySink.mk ([] ++ [VStr "3"; VNone]))).
Proof.
  destruct (X3_channel_ArraySink Sample.dump_json ∅
              (Channel.Plain
                 (ResultChannel.with_sink
                    (Some (ResultSink.Array ArraySink.__init__))
                    (ResultChannel.__init__ cOpaqueChannel "aux" "" None
                       true)))
              ArraySink.__init__ [VStr "3"; VNone] [VStr "3"; VNone] eq_refl
              ltac:(repeat constructor)) as (c' & Hrun & Hsk & _).
  exists c'. split; [exact Hrun | exact Hsk].
Defined.

Lemma float_not_AssertionError v : Builtins.float v <> Raise AssertionError.
Proof.
  destruct v as [|b|z|f|s|l|d]; simpl; try discriminate.
  - by destruct (Builtins.float_of_Z z).
  - by destruct (Builtins.parse_number s).
Qed.

Lemma int_not_AssertionError v : Builtins.int v <> Raise AssertionError.
Proof.
  destruct v as [|b|z|f|s|l|d]; simpl; try discriminate.
  - by destruct f.
  - destruct (Builtins.parse_int s) as [[[neg m] k]|]; [|done].
    by destruct (Builtins.max_str_digits <? k)%nat.
Qed.

Lemma numeric_coerce_not_None dump_json k v w :
  k = cFloatChannel \/ k = cIntChannel ->
  _coerce_to_type dump_json k v = Ok w -> w <> VNone.
Proof.
  intros [-> | ->] H; cbn in H.
  - by destruct (float_returns_float _ _ H) as [f ->].
  - by destruct (int_returns_int _ _ H) as [z ->].
Qed.

Lemma AppendingDatasetSink_push_not_assert (ds : datasets) s w :
  w <> VNone ->
  snd (AppendingDatasetSink.push w (ds, s)) <> Raise AssertionError.
Proof.
  intros Hw. apply is_None_false in Hw.
  unfold AppendingDatasetSink.push, bind, assert_, gets. rewrite Hw.
  cbn [negb ret snd].
  destruct (is_None (AppendingDatasetSink.last_value s)); [done|].
  unfold on_fst, HasEnvironment.append_to_dataset. cbn [fst snd].
  destruct (ds !! AppendingDatasetSink.key s) as [[[] ?]|]; done.
Qed.

(** X4. A [FloatChannel] or [IntChannel] never trips the assertion of an
    [AppendingDatasetSink] attached to it, whatever is pushed and whatever
    the sink and the store hold: [None] is refused by the coercion, with
    [TypeError], before the sink sees it. On such a channel with a sink as
    built, pushes of values that the class coerces all return and leave the
    coerced values, in push order, as the store entry at the sink's key. An
    [OpaqueChannel] hands [None] on, and the push raises the sink's
    [AssertionError], leaving channel, sink and store as they were. *)
Theorem X4_channel_AppendingDatasetSink (dump_json : PyVal -> result PyVal)
    (ds : datasets) (c : Channel.t) (s : AppendingDatasetSink.t)
    (Hsink : Channel.sink c = Some (ResultSink.AppendingDataset s)) :
  (Channel.class c = cFloatChannel \/ Channel.class c = cIntChannel ->
   (forall v, snd (Channel.push dump_json v (ds, c)) <> Raise AssertionError) /\
   snd (Channel.push dump_json VNone (ds, c)) = Raise TypeError /\
   forall key broadcast v vs w ws,
     s = AppendingDatasetSink.build key broadcast ->
     Forall2 (fun v w =>
                _coerce_to_type dump_json (Channel.class c) v = Ok w)
       (v :: vs) (w :: ws) ->
     exists c',
       run_all (Channel.push dump_json) (v :: vs) (ds, c) =
       ((<[key := HasEnvironment.mk (VList (w :: ws)) broadcast]> ds, c'),
        Ok tt) /\
       Channel.sink c' =
       Some (ResultSink.AppendingDataset
               (AppendingDatasetSink.mk key broadcast (List.last ws w)))) /\
  (Channel.class c = cOpaqueChannel ->
   Channel.well_formed c = true ->
   Channel.push dump_json VNone (ds, c) = ((ds, c), Raise AssertionError)).
Proof.
  split.
  - intros Hk. split; [|split].
    + intros v.
      destruct (_coerce_to_type dump_json (Channel.class c) v) as [w|e] eqn:E.
      * rewrite (Channel_push_sink dump_json ds c _ v w) by done.
        cbn [ResultSink.push].
        pose proof (AppendingDatasetSink_push_not_assert ds s w
                      (numeric_coerce_not_None _ _ _ _ Hk E)) as Hna.
        by destruct (AppendingDatasetSink.push w (ds, s)) as [[ds' s'] r].
      * rewrite (Channel_push_raise dump_json ds c v e) by done. cbn.
        intros [= ->]. destruct Hk as [Hk | Hk]; rewrite Hk in E; cbn in E.
        -- by apply float_not_AssertionError in E.
        -- by apply int_not_AssertionError in E.
    + rewrite (Channel_push_raise dump_json ds c VNone TypeError); [done|].
      by destruct Hk as [-> | ->].
    + intros key broadcast v vs w ws -> Hco.
      assert (Hnn : Forall (fun x => x <> VNone) (w :: ws)).
      { clear -Hco Hk. revert Hco. generalize (v :: vs) (w :: ws).
        induction 1 as [|? ? ? ? H1 ? IH]; constructor; [|done].
        by apply (numeric_coerce_not_None _ _ _ _ Hk H1). }
      destruct (Channel_push_all_sink dump_json (Channel.class c) _ _ Hco
                  ds c _
                  (<[key := HasEnvironment.mk (VList (w :: ws)) broadcast]> ds)
                  (ResultSink.AppendingDataset
                     (AppendingDatasetSink.mk key broadcast (List.last ws w)))
                  (Ok tt) eq_refl Hsink) as (c' & Hrun & Hsk & _).
      { rewrite ResultSink_push_all_Appending.
        by rewrite AppendingDatasetSink_push_all. }
      by exists c'.
  - intros Hk Hwf.
    rewrite (Channel_push_sink dump_json ds c
               (ResultSink.AppendingDataset s) VNone VNone);
      [|done|by rewrite Hk].
    destruct c as [b|n]; unfold Channel.class in Hk; cbn in Hk, Hwf, Hsink.
    + cbn. by rewrite with_sink_same.
    + by rewrite Hk in Hwf.
Qed.

Lemma X4_channel_AppendingDatasetSink_witness :
  exists c',
    run_all (Channel.push Sample.dump_json) [VStr "3"; VInt 4]
      (∅, Channel.Numeric
            (NumericChannel.mk
               (ResultChannel.with_sink
                  (Some (ResultSink.AppendingDataset
                           (AppendingDatasetSink.build "data" true)))
                  (ResultChannel.__init__ cIntChannel "n" "" None true))
               VNone VNone (VFloat NumericChannel.one) (Some ""%string)
               false (VInt 0))) =
    ((<["data"%string := HasEnvironment.mk (VList [VInt 3; VInt 4]) true]> ∅,
      c'), Ok tt).
Proof.
  destruct (X4_channel_AppendingDatasetSink Sample.dump_json ∅
              (Channel.Numeric
                 (NumericChannel.mk
                    (ResultChannel.with_sink
                       (Some (ResultSink.AppendingDataset
                                (AppendingDatasetSink.build "data" true)))
                       (ResultChannel.__init__ cIntChannel "n" "" None true))
                    VNone VNone (VFloat NumericChannel.one) (Some ""%string)
                    false (VInt 0)))
              (AppendingDatasetSink.build "data" true) eq_refl) as [H _].
  destruct (H (or_intror eq_refl)) as (_ & _ & Hall).
  destruct (Hall "data"%string true (VStr "3") [VInt 4] (VInt 3) [VInt 4]
              eq_refl ltac:(repeat constructor)) as (c' & Hrun & _).
  exists c'. exact Hrun.
Defined.

(** X5. A channel with an unset [SingleUseSink] attached, pushed to twice
    with values that its class coerces: the first push returns and the sink
    holds the first coerced value; the second raises the sink's
    [RuntimeError] and the sink still holds the first value, while a
    [NumericChannel] has by then cached the second raw value, which
    [get_last()] returns. The dataset store is untouched throughout. *)
Theorem X5_channel_SingleUseSink (dump_json : PyVal -> result PyVal)
    (ds : datasets) (c : Channel.t) (s0 : SingleUseSink.t)
    (v w v' w' : PyVal)
    (Hsink : Channel.sink c = Some (ResultSink.SingleUse s0))
    (Hunset : SingleUseSink.is_set s0 = false)
    (Hv : _coerce_to_type dump_json (Channel.class c) v = Ok v')
    (Hw : _coerce_to_type dump_json (Channel.class c) w = Ok w') :
  let held := ResultSink.SingleUse (SingleUseSink.mk true v') in
  exists c1 c2,
    Channel.push dump_json v (ds, c) = ((ds, c1), Ok tt) /\
    Channel.sink c1 = Some held /\
    Channel.push dump_json w (ds, c1) = ((ds, c2), Raise RuntimeError) /\
    Channel.sink c2 = Some held /\
    forall n2, c2 = Channel.Numeric n2 -> NumericChannel.get_last n2 = Ok w.
Proof.
  intros held. destruct s0 as [set val].
  unfold SingleUseSink.is_set in Hunset. cbn in Hunset. subst set.
  exists (attached held (cached v c)),
         (attached held (cached w (attached held (cached v c)))).
  split; [by rewrite (Channel_push_sink dump_json ds c
                        (ResultSink.SingleUse (SingleUseSink.mk false val))
                        v v')|].
  split; [apply attached_sink|]. split.
  - rewrite (Channel_push_sink dump_json ds _ held w w');
      [reflexivity|apply attached_sink|].
    by rewrite attached_class, cached_class.
  - split; [apply attached_sink|].
    intros n2 E. destruct c as [b|n]; cbn in E; [discriminate|].
    injection E as <-. reflexivity.
Qed.

Lemma X5_channel_SingleUseSink_witness :
  exists c1 c2,
    Channel.push Sample.dump_json (VInt 1)
      (∅, Channel.Plain
            (ResultChannel.with_sink
               (Some (ResultSink.SingleUse SingleUseSink.__init__))
               (ResultChannel.__init__ cOpaqueChannel "aux" "" None true))) =
    ((∅, c1), Ok tt) /\
    Channel.push Sample.dump_json (VInt 2) (∅, c1) =
    ((∅, c2), Raise RuntimeError) /\
    Channel.sink c2 =
    Some (ResultSink.SingleUse (SingleUseSink.mk true (VInt 1))).
Proof.
  destruct (X5_channel_SingleUseSink Sample.dump_json ∅
              (Channel.Plain
                 (ResultChannel.with_sink
                    (Some (ResultSink.SingleUse SingleUseSink.__init__))
                    (ResultChannel.__init__ cOpaqueChannel "aux" "" None
                       true)))
              SingleUseSink.__init__ (VInt 1) (VInt 2) (VInt 1) (VInt 2)
              eq_refl eq_refl eq_refl eq_refl)
    as (c1 & c2 & H1 & _ & H2 & H3 & _).
  exists c1, c2. split; [exact H1|]. split; [exact H2 | exact H3].
Defined.

(** X6. What [NumericChannel.get_last()] returns is the raw value of the
    last push, not what the sink received: with a [LastValueSink] attached
    and a raw value that the class coerces, the push returns, the sink's
    value is the coerced one and [get_last()] of the channel is the raw
    one. The two differ whenever the raw value pushed to a [FloatChannel]
    is not a float, or the one pushed to an [IntChannel] is not an
    integer. *)
Theorem X6_get_last_is_raw (dump_json : PyVal -> result PyVal)
    (ds : datasets) (n : NumericChannel.t) (s : LastValueSink.t)
    (raw_value value : PyVal)
    (Hsink : ResultChannel.sink (NumericChannel.base n) =
             Some (ResultSink.LastValue s))
    (Hcoerce : _coerce_to_type dump_json
                 (ResultChannel.class (NumericChannel.base n)) raw_value =
               Ok value) :
  (exists n',
     NumericChannel.push dump_json raw_value (ds, n) = ((ds, n'), Ok tt) /\
     NumericChannel.get_last n' = Ok raw_value /\
     ResultChannel.sink (NumericChannel.base n') =
     Some (ResultSink.LastValue (LastValueSink.mk value)) /\
     LastValueSink.get_last (LastValueSink.mk value) = value) /\
  (ResultChannel.class (NumericChannel.base n) = cFloatChannel ->
   (forall f, raw_value <> VFloat f) -> value <> raw_value) /\
  (ResultChannel.class (NumericChannel.base n) = cIntChannel ->
   (forall z, raw_value <> VInt z) -> value <> raw_value).
Proof.
  split; [|split].
  - pose proof (Channel_push_sink dump_json ds (Channel.Numeric n)
                  (ResultSink.LastValue s) raw_value value Hsink Hcoerce) as H.
    unfold Channel.push in H.
    destruct (NumericChannel.push dump_json raw_value (ds, n))
      as [[ds' n'] r].
    cbn in H. injection H as -> -> ->.
    eexists. split; [reflexivity|]. by repeat split.
  - intros Hk Hraw ->. rewrite Hk in Hcoerce. cbn in Hcoerce.
    destruct (float_returns_float _ _ Hcoerce) as [f ->]. by apply (Hraw f).
  - intros Hk Hraw ->. rewrite Hk in Hcoerce. cbn in Hcoerce.
    destruct (int_returns_int _ _ Hcoerce) as [z ->]. by apply (Hraw z).
Qed.

Lemma X6_get_last_is_raw_witness :
  exists n',
    NumericChannel.push Sample.dump_json (VStr "3")
      (∅, NumericChannel.mk
            (ResultChannel.with_sink
               (Some (ResultSink.LastValue LastValueSink.__init__))
               (ResultChannel.__init__ cFloatChannel "f" "" None true))
            VNone VNone (VFloat NumericChannel.one) (Some ""%string) false
            (VFloat (S754_zero false))) = ((∅, n'), Ok tt) /\
    NumericChannel.get_last n' = Ok (VStr "3") /\
    ResultChannel.sink (NumericChannel.base n') =
    Some (ResultSink.LastValue
            (LastValueSink.mk (VFloat (Builtins.float_of_Z 3)))).
Proof.
  destruct (X6_get_last_is_raw Sample.dump_json ∅
              (NumericChannel.mk
                 (ResultChannel.with_sink
                    (Some (ResultSink.LastValue LastValueSink.__init__))
                    (ResultChannel.__init__ cFloatChannel "f" "" None true))
                 VNone VNone (VFloat NumericChannel.one) (Some ""%string)
                 false (VFloat (S754_zero false)))
              LastValueSink.__init__ (VStr "3")
              (VFloat (Builtins.float_of_Z 3)) eq_refl eq_refl)
    as [(n' & Hp & Hg & Hs & _) _].
  exists n'. split; [exact Hp|]. split; [exact Hg | exact Hs].
Defined.

(** ** What a push leaves alone *)

Lemma describe_cached v c : Channel.describe (cached v c) = Channel.describe c.
Proof. by destruct c as [b|n]. Qed.

Lemma describe_attached sk c :
  Channel.describe (attached sk c) = Channel.describe c.
Proof. by destruct c as [b|n]. Qed.

Lemma Channel_push_no_sink dump_json (ds : datasets) c v :
  Channel.sink c = None ->
  fst (Channel.push dump_json v (ds, c)) = (ds, cached v c).
Proof.
  intros Hs. destruct c as [b|n]; unfold Channel.sink in Hs; cbn in Hs.
  - unfold Channel.push. by rewrite ResultChannel_push_no_sink.
  - unfold Channel.push. rewrite NumericChannel_push_eq.
    unfold NumericChannel._push.
    rewrite ResultChannel_push_no_sink by (by destruct n).
    by destruct n.
Qed.

Lemma Channel_push_shape dump_json (ds : datasets) c v :
  let c' := snd (fst (Channel.push dump_json v (ds, c))) in
  c' = cached v c \/
  exists sk sk', Channel.sink c = Some sk /\ c' = attached sk' (cached v c).
Proof.
  cbn zeta. destruct (Channel.sink c) as [sk|] eqn:Hs.
  - destruct (_coerce_to_type dump_json (Channel.class c) v) as [w|e] eqn:E.
    + right. rewrite (Channel_push_sink dump_json ds c sk v w) by done.
      destruct (ResultSink.push w (ds, sk)) as [[ds' sk'] r]. by exists sk, sk'.
    + left. by rewrite (Channel_push_raise dump_json ds c v e).
  - left. by rewrite Channel_push_no_sink.
Qed.

(** X7. A push changes nothing of what a channel is: whatever is pushed,
    to whatever channel, and whether the push returns or raises, afterwards
    [describe()] returns what it returned before, [is_muted()] is as
    before (a push neither attaches nor detaches a sink), and class and
    [save_by_default] are unchanged. [set_sink] does not change
    [describe()] either. *)
Theorem X7_push_keeps_metadata (dump_json : PyVal -> result PyVal)
    (ds : datasets) (c : Channel.t) (raw_value : PyVal) :
  let c' := snd (fst (Channel.push dump_json raw_value (ds, c))) in
  Channel.describe c' = Channel.describe c /\
  Channel.is_muted c' = Channel.is_muted c /\
  Channel.class c' = Channel.class c /\
  ResultChannel.save_by_default (Channel.base c') =
  ResultChannel.save_by_default (Channel.base c) /\
  forall sk b,
    ResultChannel.describe (fst (ResultChannel.set_sink sk b)) =
    ResultChannel.describe b.
Proof.
  cbn zeta.
  destruct (Channel_push_shape dump_json ds c raw_value)
    as [-> | (sk & sk' & Hs & ->)].
  - rewrite describe_cached, cached_class.
    repeat split; by destruct c as [b|n].
  - rewrite describe_attached, describe_cached, attached_class, cached_class.
    split; [done|]. split.
    + unfold Channel.is_muted, ResultChannel.is_muted.
      fold (Channel.sink (attached sk' (cached raw_value c))).
      fold (Channel.sink c). by rewrite attached_sink, Hs.
    + repeat split; by destruct c as [b|n].
Qed.

(** X8. The base classes do not work as channels or sinks. On a bare
    [ResultChannel], [describe()] and [push] raise [NotImplementedError],
    and the push changes neither channel, sink nor store, also with a sink
    attached. Constructing a bare [NumericChannel] never succeeds: it
    raises what the resolution of the scale raises, and
    [NotImplementedError] when that goes through. A push to a channel
    whose sink is a bare [ResultSink] raises [NotImplementedError] once
    the value is coerced, and leaves the store alone. *)
Theorem X8_base_classes (units : string -> option PyVal)
    (dump_json : PyVal -> result PyVal) (ds : datasets) (v : PyVal) :
  (forall b,
     ResultChannel.class b = cResultChannel ->
     ResultChannel.describe b = Raise NotImplementedError /\
     ResultChannel.push dump_json v (ds, b) =
     ((ds, b), Raise NotImplementedError)) /\
  (forall path description display_hints min max unit scale,
     NumericChannel.__init__ units dump_json cNumericChannel path description
       display_hints min max unit scale =
     match NumericChannel.resolve_scale units unit scale with
     | Ok _ => Raise NotImplementedError
     | Raise e => Raise e
     end) /\
  (forall c value,
     Channel.sink c = Some ResultSink.BaseSink ->
     _coerce_to_type dump_json (Channel.class c) v = Ok value ->
     exists c',
       Channel.push dump_json v (ds, c) =
       ((ds, c'), Raise NotImplementedError) /\
       Channel.sink c' = Some ResultSink.BaseSink).
Proof.
  split; [|split].
  - intros b Hk. split.
    + unfold ResultChannel.describe. by rewrite Hk.
    + apply ResultChannel_push_raise. by rewrite Hk.
  - intros. unfold NumericChannel.__init__.
    by destruct (NumericChannel.resolve_scale units unit scale).
  - intros c value Hs Hc. eexists.
    rewrite (Channel_push_sink dump_json ds c ResultSink.BaseSink v value)
      by done.
    split; [reflexivity|apply attached_sink].
Qed.

Lemma X8_base_classes_witness :
  ResultChannel.push Sample.dump_json (VInt 1)
    (∅, ResultChannel.with_sink
          (Some (ResultSink.Array ArraySink.__init__))
          (ResultChannel.__init__ cResultChannel "p" "" None true)) =
  ((∅, ResultChannel.with_sink
         (Some (ResultSink.Array ArraySink.__init__))
         (ResultChannel.__init__ cResultChannel "p" "" None true)),
   Raise NotImplementedError).
Proof.
  destruct (X8_base_classes Sample.units Sample.dump_json ∅ (VInt 1))
    as [H _].
  exact (proj2 (H (ResultChannel.with_sink
                     (Some (ResultSink.Array ArraySink.__init__))
                     (ResultChannel.__init__ cResultChannel "p" "" None
                        true)) eq_refl)).
Defined.

(** X9. A sink writes to the dataset store at its own key only. A push to
    an [AppendingDatasetSink] or a [ScalarDatasetSink], returning or
    raising, leaves every other key of the store as it was and leaves the
    sink's key and broadcast flag unchanged; a push to a [SingleUseSink],
    a [LastValueSink] or an [ArraySink] leaves the whole store as it
    was. *)
Theorem X9_store_frame (ds : datasets) (v : PyVal) :
  (forall s,
     let '((ds', s'), r) := AppendingDatasetSink.push v (ds, s) in
     AppendingDatasetSink.key s' = AppendingDatasetSink.key s /\
     AppendingDatasetSink.broadcast s' = AppendingDatasetSink.broadcast s /\
     forall key' : string,
       key' <> AppendingDatasetSink.key s -> ds' !! key' = ds !! key') /\
  (forall s,
     let '((ds', s'), r) := ScalarDatasetSink.push v (ds, s) in
     ScalarDatasetSink.key s' = ScalarDatasetSink.key s /\
     ScalarDatasetSink.broadcast s' = ScalarDatasetSink.broadcast s /\
     forall key' : string,
       key' <> ScalarDatasetSink.key s -> ds' !! key' = ds !! key') /\
  (forall s, fst (fst (ResultSink.push v (ds, ResultSink.SingleUse s))) = ds) /\
  (forall s, fst (fst (ResultSink.push v (ds, ResultSink.LastValue s))) = ds) /\
  (forall s, fst (fst (ResultSink.push v (ds, ResultSink.Array s))) = ds).
Proof.
  split; [|split; [|split; [|split]]].
  - intros [k b lv].
    unfold AppendingDatasetSink.push, bind, assert_, gets.
    destruct (is_None v); cbn [negb ret raise];
      [split; [done|split; done]|].
    cbn [snd AppendingDatasetSink.last_value AppendingDatasetSink.key
         AppendingDatasetSink.broadcast].
    destruct (is_None lv).
    + cbn. split; [done|]. split; [done|].
      intros key' Hk. by rewrite lookup_insert_ne.
    + unfold on_fst, HasEnvironment.append_to_dataset. cbn [fst snd].
      destruct (ds !! k) as [[[] ?]|]; cbn;
        (split; [done|]); (split; [done|]); try done.
      intros key' Hk. by rewrite lookup_insert_ne.
  - intros [k b hp]. rewrite ScalarDatasetSink_push_eq. cbn.
    split; [done|]. split; [done|].
    intros key' Hk. by rewrite lookup_insert_ne.
  - intros [[|] val]; reflexivity.
  - intros s. reflexivity.
  - intros s. reflexivity.
Qed.

Lemma X9_store_frame_witness :
  fst (fst (ScalarDatasetSink.push (VInt 2)
              (<["other"%string := HasEnvironment.mk (VInt 1) true]> ∅,
               ScalarDatasetSink.build "data" true))) !! "other"%string =
  Some (HasEnvironment.mk (VInt 1) true).
Proof.
  destruct (X9_store_frame
              (<["other"%string := HasEnvironment.mk (VInt 1) true]> ∅)
              (VInt 2)) as (_ & H & _).
  specialize (H (ScalarDatasetSink.build "data" true)).
  destruct (ScalarDatasetSink.push (VInt 2)
              (<["other"%string := HasEnvironment.mk (VInt 1) true]> ∅,
               ScalarDatasetSink.build "data" true)) as [[ds' s'] r].
  destruct H as (_ & _ & H). cbn [fst].
  rewrite (H "other"%string ltac:(discriminate)).
  apply lookup_insert_eq.
Defined.

(** ** Sinks over longer call sequences *)

Lemma is_None_true v : is_None v = true <-> v = VNone.
Proof. destruct v; simpl; split; congruence. Qed.

Lemma continue_all_cons {S A} (f : A -> M S unit) x xs st :
  continue_all f (x :: xs) st = continue_all f xs (fst (f x st)).
Proof. reflexivity. Qed.

Lemma AppendingDatasetSink_continue_more vs :
  forall (ds : datasets) k b b' w l,
    w <> VNone ->
    ds !! k = Some (HasEnvironment.mk (VList l) b') ->
    continue_all AppendingDatasetSink.push vs
      (ds, AppendingDatasetSink.mk k b w) =
    (<[k := HasEnvironment.mk
              (VList (l ++ List.filter (fun v => negb (is_None v)) vs)) b']>
       ds,
     AppendingDatasetSink.mk k b
       (List.last (List.filter (fun v => negb (is_None v)) vs) w)).
Proof.
  induction vs as [|v vs IH]; intros ds k b b' w l Hw Hk.
  - cbn. by rewrite app_nil_r, insert_id.
  - rewrite continue_all_cons. cbn [List.filter].
    destruct (is_None v) eqn:Hv; cbn [negb].
    + apply is_None_true in Hv. subst v. cbn [fst]. by apply IH.
    + apply is_None_false in Hv.
      rewrite (AppendingDatasetSink_push_next ds k b b' w l v) by done.
      cbn [fst].
      rewrite (IH _ k b b' v (l ++ [v])); [|done|apply lookup_insert_eq].
      by rewrite insert_insert_eq, <- app_assoc, last_cons_default.
Qed.

(** X10. The history that an [AppendingDatasetSink] keeps is the pushed
    values that are not [None]: when a caller goes through any pushes,
    going on after the ones that raise, a sink as built ends with the store
    entry at its key holding exactly the values other than [None], in push
    order, and with the last of them as [get_last()]; if every pushed value
    was [None], sink and store are as they were. *)
Theorem X10_history_skips_None (ds : datasets) (k : string) (b : bool)
    (vs : list PyVal) :
  continue_all AppendingDatasetSink.push vs
    (ds, AppendingDatasetSink.build k b) =
  match List.filter (fun v => negb (is_None v)) vs with
  | [] => (ds, AppendingDatasetSink.build k b)
  | w :: ws =>
      (<[k := HasEnvironment.mk (VList (w :: ws)) b]> ds,
       AppendingDatasetSink.mk k b (List.last ws w))
  end.
Proof.
  induction vs as [|v vs IH]; [reflexivity|].
  rewrite continue_all_cons. cbn [List.filter].
  destruct (is_None v) eqn:Hv; cbn [negb].
  - apply is_None_true in Hv. subst v. exact IH.
  - apply is_None_false in Hv.
    rewrite AppendingDatasetSink_push_first by done. cbn [fst].
    rewrite (AppendingDatasetSink_continue_more vs _ k b b v [v]);
      [|done|apply lookup_insert_eq].
    by rewrite insert_insert_eq.
Qed.

(** X11. [ScalarDatasetSink.get_last()] reads the store, not a value the
    sink keeps: after one sink pushed [a] and then another pushed [b],
    [get_last()] of the first returns [b] if the two have the same key, and
    [a] otherwise. *)
Theorem X11_ScalarDatasetSink_shared_key (ds : datasets)
    (s1 s2 : ScalarDatasetSink.t) (a b : PyVal) :
  let '((ds1, s1'), r1) := ScalarDatasetSink.push a (ds, s1) in
  let '((ds2, s2'), r2) := ScalarDatasetSink.push b (ds1, s2) in
  r1 = Ok tt /\ r2 = Ok tt /\
  ScalarDatasetSink.get_last (ds2, s1') =
  ((ds2, s1'),
   Ok (if decide (ScalarDatasetSink.key s1 = ScalarDatasetSink.key s2)
       then b else a)).
Proof.
  rewrite !ScalarDatasetSink_push_eq. split; [done|]. split; [done|].
  unfold ScalarDatasetSink.get_last, bind, gets, on_fst,
    HasEnvironment.get_dataset.
  destruct s1 as [k1 b1 p1], s2 as [k2 b2 p2].
  cbn [fst snd ScalarDatasetSink.key ScalarDatasetSink.broadcast
       ScalarDatasetSink.has_pushed ScalarDatasetSink.set_has_pushed].
  case_decide as Hk.
  - subst k2. by rewrite lookup_insert_eq.
  - rewrite lookup_insert_ne by done. by rewrite lookup_insert_eq.
Qed.

(** X12. Two [AppendingDatasetSink]s built on one key do not share a
    history: the first push of the second sink sets the entry anew and
    discards what the first sink had pushed. The first sink's [get_last()]
    still returns its own last value, while its [get_all()] returns the
    second sink's values, and its next push appends to those. *)
Theorem X12_AppendingDatasetSink_shared_key (ds : datasets) (k : string)
    (b1 b2 : bool) (a b c : PyVal)
    (Ha : a <> VNone) (Hb : b <> VNone) (Hc : c <> VNone) :
  exists ds1 s1 ds2 s2 ds3 s1',
    AppendingDatasetSink.push a (ds, AppendingDatasetSink.build k b1) =
    ((ds1, s1), Ok tt) /\
    ds1 !! k = Some (HasEnvironment.mk (VList [a]) b1) /\
    AppendingDatasetSink.push b (ds1, AppendingDatasetSink.build k b2) =
    ((ds2, s2), Ok tt) /\
    ds2 !! k = Some (HasEnvironment.mk (VList [b]) b2) /\
    AppendingDatasetSink.get_last s1 = a /\
    AppendingDatasetSink.get_all (ds2, s1) = ((ds2, s1), Ok (VList [b])) /\
    AppendingDatasetSink.push c (ds2, s1) = ((ds3, s1'), Ok tt) /\
    ds3 !! k = Some (HasEnvironment.mk (VList [b; c]) b2).
Proof.
  eexists _, _, _, _, _, _.
  split; [by apply AppendingDatasetSink_push_first|].
  split; [apply lookup_insert_eq|].
  split; [by apply AppendingDatasetSink_push_first|].
  split; [apply lookup_insert_eq|].
  split; [reflexivity|]. split.
  { rewrite AppendingDatasetSink_get_all_pushed by done.
    unfold HasEnvironment.get_dataset. by rewrite lookup_insert_eq. }
  split.
  { by apply (AppendingDatasetSink_push_next _ k b1 b2 a [b] c);
      [| |apply lookup_insert_eq]. }
  apply lookup_insert_eq.
Qed.

Lemma X12_AppendingDatasetSink_shared_key_witness :
  exists ds2 s1,
    AppendingDatasetSink.get_last s1 = VInt 1 /\
    AppendingDatasetSink.get_all (ds2, s1) = ((ds2, s1), Ok (VList [VInt 2])).
Proof.
  destruct (X12_AppendingDatasetSink_shared_key ∅ "data" true false
              (VInt 1) (VInt 2) (VInt 3)
              ltac:(discriminate) ltac:(discriminate) ltac:(discriminate))
    as (ds1 & s1 & ds2 & s2 & ds3 & s1' & _ & _ & _ & _ & Hl & Hg & _).
  exists ds2, s1. split; [exact Hl | exact Hg].
Defined.

Lemma SingleUseSink_continue_set vs : forall val,
  continue_all SingleUseSink.push vs (SingleUseSink.mk true val) =
  SingleUseSink.mk true val.
Proof. induction vs as [|v vs IH]; intros val; [reflexivity|apply IH]. Qed.

(** X13. A [SingleUseSink] keeps the first value: when a caller goes
    through any pushes, going on after the ones that raise, an unset sink
    ends up set and holding the first value pushed, and a sink that was set
    ends up exactly as it was. *)
Theorem X13_SingleUseSink_first_wins (s : SingleUseSink.t) (v : PyVal)
    (vs : list PyVal) :
  (SingleUseSink.is_set s = false ->
   let s' := continue_all SingleUseSink.push (v :: vs) s in
   SingleUseSink.is_set s' = true /\ SingleUseSink.get s' = Ok v) /\
  (SingleUseSink.is_set s = true ->
   continue_all SingleUseSink.push (v :: vs) s = s).
Proof.
  destruct s as [[|] val]; cbn [SingleUseSink.is_set SingleUseSink._is_set];
    (split; [|]); intros H; try discriminate.
  - apply SingleUseSink_continue_set.
  - rewrite continue_all_cons.
    change (fst (SingleUseSink.push v (SingleUseSink.mk false val)))
      with (SingleUseSink.mk true v).
    by rewrite SingleUseSink_continue_set.
Qed.

Lemma X13_SingleUseSink_first_wins_witness :
  SingleUseSink.get
    (continue_all SingleUseSink.push [VInt 1; VInt 2; VInt 3]
       SingleUseSink.__init__) = Ok (VInt 1).
Proof.
  destruct (X13_SingleUseSink_first_wins SingleUseSink.__init__ (VInt 1)
              [VInt 2; VInt 3]) as [H _].
  exact (proj2 (H eq_refl)).
Defined.

Lemma last_app_default {A} (l1 l2 : list A) d :
  List.last (l1 ++ l2) d = List.last l2 (List.last l1 d).
Proof.
  revert d. induction l1 as [|x l1 IH]; intros d; [reflexivity|].
  change ((x :: l1) ++ l2) with (x :: (l1 ++ l2)).
  by rewrite !last_cons_default, IH.
Qed.

Lemma ArraySink_get_last_eq s :
  ArraySink.get_last s = List.last (ArraySink.data s) VNone.
Proof. unfold ArraySink.get_last. by destruct (ArraySink.data s). Qed.

(** X14. An [ArraySink] in any state accumulates: pushes always return,
    [get_all()] afterwards is what it was before followed by the pushed
    values, and [get_last()] is the last value pushed, or what it was if
    nothing was pushed. [clear()] forgets all of it: after [clear()] and
    further pushes, [get_all()] is the values pushed since, whatever the
    sink held. *)
Theorem X14_ArraySink_accumulates (s : ArraySink.t) (vs ws : list PyVal) :
  exists s1 s2,
    run_all ArraySink.push vs s = (s1, Ok tt) /\
    ArraySink.get_all s1 = ArraySink.get_all s ++ vs /\
    ArraySink.get_last s1 = List.last vs (ArraySink.get_last s) /\
    (ArraySink.clear ;;; run_all ArraySink.push ws)%py s1 = (s2, Ok tt) /\
    ArraySink.get_all s2 = ws /\
    ArraySink.get_last s2 = List.last ws VNone.
Proof.
  eexists _, _. split; [apply ArraySink_push_all|].
  split; [reflexivity|]. split.
  { rewrite !ArraySink_get_last_eq. cbn. apply last_app_default. }
  split.
  { unfold bind. cbn [ArraySink.clear modify]. apply ArraySink_push_all. }
  split; [reflexivity|]. by rewrite ArraySink_get_last_eq.
Qed.

(** X15. Coercing twice is coercing once: a value that
    [FloatChannel], [IntChannel] or [OpaqueChannel] has coerced is coerced
    to itself by the same class, so pushing what a sink of such a channel
    received gives the sink the same value again. *)
Theorem X15_coercion_idempotent (dump_json : PyVal -> result PyVal)
    (k : cls) (v w : PyVal)
    (Hk : k = cFloatChannel \/ k = cIntChannel \/ k = cOpaqueChannel)
    (Hv : _coerce_to_type dump_json k v = Ok w) :
  _coerce_to_type dump_json k w = Ok w.
Proof.
  destruct Hk as [-> | [-> | ->]]; cbn in *.
  - by destruct (float_returns_float _ _ Hv) as [f ->].
  - by destruct (int_returns_int _ _ Hv) as [z ->].
  - reflexivity.
Qed.

Lemma X15_coercion_idempotent_witness :
  _coerce_to_type Sample.dump_json cFloatChannel
    (VFloat (Builtins.float_of_Z 3)) = Ok (VFloat (Builtins.float_of_Z 3)).
Proof.
  exact (X15_coercion_idempotent Sample.dump_json cFloatChannel (VStr "3")
           (VFloat (Builtins.float_of_Z 3)) (or_introl eq_refl) eq_refl).
Defined.

(** ** The list that [ArraySink.get_all] hands out *)

Lemma ArraySinkRef_push_eq (h : list (list PyVal)) self v :
  ArraySinkRef.push v (h, self) =
  ((alter (fun l => l ++ [v]) (ArraySinkRef.data self) h, self), Ok tt).
Proof. reflexivity. Qed.

Lemma ArraySinkRef_push_all vs : forall (h : list (list PyVal)) self l,
  h !! ArraySinkRef.data self = Some l ->
  exists h',
    run_all ArraySinkRef.push vs (h, self) = ((h', self), Ok tt) /\
    h' !! ArraySinkRef.data self = Some (l ++ vs) /\
    length h' = length h /\
    forall i : nat, i <> ArraySinkRef.data self -> h' !! i = h !! i.
Proof.
  induction vs as [|v vs IH]; intros h self l Hl.
  - exists h. by rewrite app_nil_r.
  - cbn [run_all]. unfold bind. rewrite ArraySinkRef_push_eq.
    destruct (IH (alter (fun l => l ++ [v]) (ArraySinkRef.data self) h)
                self (l ++ [v])) as (h' & Hrun & Hcell & Hlen & Hother).
    { by rewrite list_lookup_alter_eq, Hl. }
    exists h'. split; [exact Hrun|]. split; [by rewrite Hcell, <- app_assoc|].
    split; [by rewrite Hlen, length_alter|].
    intros i Hi. rewrite Hother by done. by rewrite list_lookup_alter_ne.
Qed.

(** X16. The list that [get_all()] returns is the sink's own list object,
    until [clear()]. With the lists in a heap: values pushed after
    [get_all()] returned a list show up in that list, as they do in the
    model that passes lists by value; [clear()] does not empty that list
    but binds the sink to a new, empty one, so the list handed out before
    keeps its contents, and later pushes go to the new list only. No other
    list in the heap is touched. *)
Theorem X16_get_all_aliases (h : list (list PyVal)) (self : ArraySinkRef.t)
    (l vs ws : list PyVal)
    (Hl : h !! ArraySinkRef.data self = Some l) :
  let r := ArraySinkRef.get_all self in
  exists h1 h2 self2 h3,
    run_all ArraySinkRef.push vs (h, self) = ((h1, self), Ok tt) /\
    h1 !! r = Some (l ++ vs) /\
    h1 !! r =
      Some (ArraySink.get_all
              (fst (run_all ArraySink.push vs (ArraySink.mk l)))) /\
    (forall i : nat, i <> r -> h1 !! i = h !! i) /\
    ArraySinkRef.clear (h1, self) = ((h2, self2), Ok tt) /\
    ArraySinkRef.get_all self2 <> r /\
    h2 !! ArraySinkRef.get_all self2 = Some [] /\
    h2 !! r = Some (l ++ vs) /\
    run_all ArraySinkRef.push ws (h2, self2) = ((h3, self2), Ok tt) /\
    h3 !! ArraySinkRef.get_all self2 = Some ws /\
    h3 !! r = Some (l ++ vs) /\
    ArraySinkRef.get_last (h1, self) =
      ArraySink.get_last (fst (run_all ArraySink.push vs (ArraySink.mk l))) /\
    ArraySinkRef.get_last (h2, self2) = VNone /\
    exists self0,
      ArraySinkRef.__init__ h = (h ++ [ [] ], Ok self0) /\
      ArraySinkRef.get_all self0 <> r /\
      (h ++ [ [] ]) !! ArraySinkRef.get_all self0 = Some [].
Proof.
  cbn zeta. unfold ArraySinkRef.get_all.
  destruct (ArraySinkRef_push_all vs h self l Hl)
    as (h1 & Hrun & Hcell & Hlen & Hother).
  pose proof (lookup_lt_Some _ _ _ Hcell) as Hlt.
  assert (Hne : length h1 <> ArraySinkRef.data self) by lia.
  destruct (ArraySinkRef_push_all ws (h1 ++ [ [] ])
              (ArraySinkRef.mk (length h1)) [])
    as (h3 & Hrun3 & Hcell3 & _ & Hother3).
  { by apply list_lookup_middle. }
  exists h1, (h1 ++ [ [] ]), (ArraySinkRef.mk (length h1)), h3.
  cbn [ArraySinkRef.data] in *.
  split; [exact Hrun|]. split; [exact Hcell|].
  split; [by rewrite ArraySink_push_all|].
  split; [exact Hother|]. split; [reflexivity|]. split; [exact Hne|].
  split; [by apply list_lookup_middle|].
  split; [by rewrite lookup_app_l|].
  split; [exact Hrun3|]. split; [exact Hcell3|].
  split; [rewrite Hother3 by done; by rewrite lookup_app_l|].
  split.
  { rewrite ArraySink_push_all, ArraySink_get_last_eq.
    unfold ArraySinkRef.get_last. cbn [fst snd ArraySinkRef.data ArraySink.data].
    rewrite Hcell. by destruct (l ++ vs). }
  split.
  { unfold ArraySinkRef.get_last. cbn [fst snd ArraySinkRef.data].
    by rewrite list_lookup_middle. }
  exists (ArraySinkRef.mk (length h)). split; [reflexivity|].
  cbn [ArraySinkRef.data]. split; [lia|]. by apply list_lookup_middle.
Qed.

Lemma X16_get_all_aliases_witness :
  exists h1 h2 self2,
    run_all ArraySinkRef.push [VInt 1; VInt 2]
      ([ [] ], ArraySinkRef.mk 0) = ((h1, ArraySinkRef.mk 0), Ok tt) /\
    h1 !! 0%nat = Some ([] ++ [VInt 1; VInt 2]) /\
    ArraySinkRef.clear (h1, ArraySinkRef.mk 0) = ((h2, self2), Ok tt) /\
    h2 !! 0%nat = Some ([] ++ [VInt 1; VInt 2]) /\
    h2 !! ArraySinkRef.get_all self2 = Some [].
Proof.
  destruct (X16_get_all_aliases [ [] ] (ArraySinkRef.mk 0) []
              [VInt 1; VInt 2] [] eq_refl)
    as (h1 & h2 & self2 & h3 & H1 & H2 & _ & _ & H3 & _ & H4 & H5 & _).
  exists h1, h2, self2. repeat split; assumption.
Defined.

(** ** A channel with a ScalarDatasetSink *)

Lemma ResultSink_push_all_Scalar ws : forall (ds : datasets) k b p w,
  run_all ResultSink.push (ws ++ [w])
    (ds, ResultSink.ScalarDataset (ScalarDatasetSink.mk k b p)) =
  ((<[k := HasEnvironment.mk w b]> ds,
    ResultSink.ScalarDataset (ScalarDatasetSink.mk k b true)), Ok tt).
Proof.
  induction ws as [|x ws IH]; intros ds k b p w; [reflexivity|].
  cbn [app run_all]. unfold bind. cbn [ResultSink.push].
  rewrite ScalarDatasetSink_push_eq. unfold ScalarDatasetSink.set_has_pushed.
  cbn [ScalarDatasetSink.key ScalarDatasetSink.broadcast].
  rewrite IH. by rewrite insert_insert_eq.
Qed.

(** X17. A channel of any class with a [ScalarDatasetSink] attached: after
    pushes of values that its class coerces, every push has returned and
    the store entry at the sink's key is the coerced value of the last
    push alone, written with the sink's broadcast flag; on a
    [SubscanChannel] that is what [dump_json] returned for the last
    value. *)
Theorem X17_channel_ScalarDatasetSink (dump_json : PyVal -> result PyVal)
    (ds : datasets) (c : Channel.t) (s : ScalarDatasetSink.t)
    (vs ws : list PyVal) (v w : PyVal)
    (Hsink : Channel.sink c = Some (ResultSink.ScalarDataset s))
    (Hcoerce : Forall2 (fun v w =>
                 _coerce_to_type dump_json (Channel.class c) v = Ok w)
                 (vs ++ [v]) (ws ++ [w])) :
  (exists c',
     run_all (Channel.push dump_json) (vs ++ [v]) (ds, c) =
     ((<[ScalarDatasetSink.key s :=
           HasEnvironment.mk w (ScalarDatasetSink.broadcast s)]> ds, c'),
      Ok tt) /\
     Channel.sink c' =
     Some (ResultSink.ScalarDataset
             (ScalarDatasetSink.mk (ScalarDatasetSink.key s)
                (ScalarDatasetSink.broadcast s) true))) /\
  _coerce_to_type dump_json (Channel.class c) v = Ok w /\
  (Channel.class c = cSubscanChannel -> dump_json v = Ok w).
Proof.
  assert (Hvw : _coerce_to_type dump_json (Channel.class c) v = Ok w).
  { apply Forall2_app_inv_r in Hcoerce
      as (vs1 & vs2 & _ & Hlast & E).
    inversion Hlast as [|? ? ? ? Hx Hnil]; subst. inversion Hnil; subst.
    apply app_inj_tail in E as [_ ->]. exact Hx. }
  split; [|split; [exact Hvw|]].
  - destruct s as [k b p].
    destruct (Channel_push_all_sink dump_json (Channel.class c) _ _ Hcoerce
                ds c _ _ _ _ eq_refl Hsink
                (ResultSink_push_all_Scalar ws ds k b p w))
      as (c' & Hrun & Hsk & _).
    by exists c'.
  - intros Hk. by rewrite Hk in Hvw.
Qed.

Lemma X17_channel_ScalarDatasetSink_witness :
  exists c',
    run_all (Channel.push Sample.dump_json) ([VInt 1] ++ [VNone])
      (∅, Channel.Plain
            (ResultChannel.with_sink
               (Some (ResultSink.ScalarDataset
                        (ScalarDatasetSink.build "scan" false)))
               (ResultChannel.__init__ cOpaqueChannel "aux" "" None true))) =
    ((<["scan"%string := HasEnvironment.mk VNone false]> ∅, c'), Ok tt).
Proof.
  destruct (X17_channel_ScalarDatasetSink Sample.dump_json ∅
              (Channel.Plain
                 (ResultChannel.with_sink
                    (Some (ResultSink.ScalarDataset
                             (ScalarDatasetSink.build "scan" false)))
                    (ResultChannel.__init__ cOpaqueChannel "aux" "" None
                       true)))
              (ScalarDatasetSink.build "scan" false)
              [VInt 1] [VInt 1] VNone VNone eq_refl
              ltac:(repeat constructor)) as [(c' & Hrun & _) _].
  exists c'. exact Hrun.
Defined.
